(** * interesting-cpp: class template argument deduction and type checks

    A shallow embedding of [src/CTAD.cpp] and [src/typeChecks.cpp].

    - A C++ type is a [ctype] (the value of [typeid(T)]); [std::is_same_v]
      is its decidable equality.
    - [std::cout] is an append-only log: every [std::cout << ... << std::endl]
      statement of the source is one constructor of a [line] type carrying the
      run-time operands of the statement, and a function prints by returning
      the lines it appended ([Out]). The log holds the statements executed,
      in program order; no statement of the source looks at the state of the
      stream, so the log does not depend on it. Which of the statements
      reach the terminal is a function of the log ([complete_lines],
      [cut_line]): a null [char*] operand puts the stream in its failed
      state.
    - A class template is a polymorphic record with one function per
      constructor and member function.
    - The choice of the constructor that a declaration [DynamicArray x(...)]
      or [DynamicArray x{...}] runs is made by the compiler from the
      constructors and the deduction guide the source declares; it is the
      function [CTAD.construct], written for literal arguments and
      [TypedClass{literal}] temporaries, the argument forms [main] uses. *)

From Stdlib Require Import ZArith List String Bool Lia PrimFloat Uint63 FloatOps SpecFloat.
Import ListNotations.

Set Warnings "-inexact-float".

Open Scope string_scope.
Open Scope Z_scope.
Open Scope list_scope.

(** ** Type identity *)

(** The types the two programs name or instantiate. *)
Inductive ctype : Set :=
| t_int
| t_double
| t_float
| t_size_t
| t_char_array (n : nat)        (* char[n]: what [const T&] deduces from a string literal *)
| t_Id (T : ctype)              (* Id<T>, typeChecks.cpp *)
| t_TypedClass (T : ctype)      (* TypedClass<T>, CTAD.cpp *)
| t_DynamicArray (T : ctype).   (* DynamicArray<T>, CTAD.cpp *)

(** [std::is_same_v<A, B>]. *)
Fixpoint is_same_v (A B : ctype) : bool :=
  match A, B with
  | t_int, t_int => true
  | t_double, t_double => true
  | t_float, t_float => true
  | t_size_t, t_size_t => true
  | t_char_array n, t_char_array m => Nat.eqb n m
  | t_Id A', t_Id B' => is_same_v A' B'
  | t_TypedClass A', t_TypedClass B' => is_same_v A' B'
  | t_DynamicArray A', t_DynamicArray B' => is_same_v A' B'
  | _, _ => false
  end.

(** What [abi::__cxa_demangle(name, 0, 0, &status)] hands back: the returned
    pointer ([None] is the null pointer) and the value stored in [status]. *)
Record demangle_result : Type := mk_demangle_result {
  demangled : option string;
  status : Z
}.

(** What the programs get from their environment at run time: the library
    they link against ([<typeinfo>], [<cxxabi.h>]; neither function is
    defined in the repository), and what the storage of an [int] or a
    [double] holds before anything is written to it (the member [val] after
    [TypedClass()]). *)
Class Platform : Type := {
  type_info_name : ctype -> string;           (* typeid(T).name() *)
  cxa_demangle : string -> demangle_result;   (* abi::__cxa_demangle *)
  indeterminate_int : Z;
  indeterminate_double : float
}.

(** [typeid(T).name()]. *)
Definition rawName {P : Platform} (T : ctype) : string := type_info_name T.

(** The expression [abi::__cxa_demangle(typeid(T).name(), 0, 0, &status)]
    (CTAD.cpp lines 24, 30, 38, 61; typeChecks.cpp line 20): the pointer is
    used as it is returned, [status] is never read. *)
Definition displayName {P : Platform} (T : ctype) : option string :=
  demangled (cxa_demangle (rawName T)).

(** A run-time library whose demangler is unavailable: it returns the null
    pointer and a non-zero status for every name. *)
Definition no_demangler : Platform := {|
  type_info_name := fun T =>
    match T with t_int => "i" | t_double => "d" | _ => "?" end;
  cxa_demangle := fun _ => {| demangled := None; status := -1 |};
  indeterminate_int := 0;
  indeterminate_double := 0%float
|}.

(** A run-time library in the style of the Itanium C++ ABI, for the types
    the two [main] functions instantiate: the mangled names, and a demangler
    that knows exactly these. *)
Definition sample_names : list (ctype * (string * string)) :=
  [ (t_int, ("i", "int"));
    (t_double, ("d", "double"));
    (t_float, ("f", "float"));
    (t_char_array 6, ("A6_c", "char [6]"));
    (t_Id t_float, ("2IdIfE", "Id<float>"));
    (t_Id t_double, ("2IdIdE", "Id<double>"));
    (t_TypedClass t_int, ("10TypedClassIiE", "TypedClass<int>"));
    (t_TypedClass t_double, ("10TypedClassIdE", "TypedClass<double>")) ].

Fixpoint sample_mangle (T : ctype) (table : list (ctype * (string * string))) : string :=
  match table with
  | [] => "?"
  | (U, (m, _)) :: rest => if is_same_v T U then m else sample_mangle T rest
  end.

Fixpoint sample_demangle (s : string) (table : list (ctype * (string * string))) :
  demangle_result :=
  match table with
  | [] => {| demangled := None; status := -2 |}
  | (_, (m, d)) :: rest =>
      if String.eqb s m then {| demangled := Some d; status := 0 |}
      else sample_demangle s rest
  end.

Definition sample_abi : Platform := {|
  type_info_name := fun T => sample_mangle T sample_names;
  cxa_demangle := fun s => sample_demangle s sample_names;
  indeterminate_int := 32767;
  indeterminate_double := 0%float
|}.

(** The same run-time library, storing [st name] in [status] instead. *)
Definition with_status (P : Platform) (st : string -> Z) : Platform := {|
  type_info_name := @type_info_name P;
  cxa_demangle := fun name =>
    {| demangled := demangled (@cxa_demangle P name); status := st name |};
  indeterminate_int := @indeterminate_int P;
  indeterminate_double := @indeterminate_double P
|}.

(** ** The output stream *)

Section Stream.
Context {L : Type}.

(** A computation that returns an [A] and appends lines to [std::cout]: the
    output statements it executes, in order. *)
Definition Out (A : Type) : Type := (A * list L)%type.

Definition ret {A : Type} (a : A) : Out A := (a, []).

Definition bind {A B : Type} (m : Out A) (k : A -> Out B) : Out B :=
  let (a, l1) := m in
  let (b, l2) := k a in
  (b, l1 ++ l2).

(** One [std::cout << ... << std::endl;] statement. *)
Definition cout (l : L) : Out unit := (tt, [l]).

Definition result {A : Type} (m : Out A) : A := fst m.
Definition output {A : Type} (m : Out A) : list L := snd m.

(** What the stream does with the statements. [null_name l] says that an
    operand of the statement [l] is a null [char*]. [operator<<] then sets
    the stream's [badbit] and inserts nothing (the standard leaves the case
    undefined; this is what libstdc++, which comes with [<cxxabi.h>], does):
    the operands before it have been written, the rest of the statement and
    every later statement write nothing, and the program goes on. *)
Variable null_name : L -> bool.

(** The statements written in full. *)
Fixpoint complete_lines (log : list L) : list L :=
  match log with
  | [] => []
  | l :: rest => if null_name l then [] else l :: complete_lines rest
  end.

(** The statement at which the stream failed, if any: it is written up to
    its null operand, and it is the last one to write anything. *)
Fixpoint cut_line (log : list L) : option L :=
  match log with
  | [] => None
  | l :: rest => if null_name l then Some l else cut_line rest
  end.

End Stream.

Arguments Out : clear implicits.
Arguments complete_lines {L} null_name log.
Arguments cut_line {L} null_name log.

Declare Scope out_scope.
Delimit Scope out_scope with out.
Notation "x <- m ;; k" := (bind m (fun x => k))
  (at level 100, m at next level, right associativity) : out_scope.
Notation "m ;;; k" := (bind m (fun _ => k))
  (at level 100, right associativity) : out_scope.
Open Scope out_scope.

(** ** typeChecks.cpp *)

Module typeChecks.

(** The statements that write to [std::cout]. *)
Inductive line : Type :=
| Hello_from_Id                               (* line 9 *)
| Type_ (name : string)                       (* line 14: "Type: " << typeid(T).name() *)
| Demangled_Type (name : option string)       (* lines 19-21 *)
| Type_at_compile_time_is_int                 (* line 27 *)
| Type_at_compile_time_is_double              (* line 29 *)
| Type_at_compile_time_is_Id_float            (* line 31 *)
| Type_at_compile_time_is_something_else.     (* line 33 *)

(** The one [char*] operand that can be null is the demangled name. *)
Definition null_name (l : line) : bool :=
  match l with
  | Demangled_Type None => true
  | _ => false
  end.

(** [Id<T>]: a class without data members. *)
Record Id : Type := mk_Id { }.

(** [Id() { std::cout << "Hello from Id" << std::endl; }] *)
Definition Id_ctor : Out line Id := cout Hello_from_Id ;;; ret mk_Id.

Section WithPlatform.
Context {P : Platform}.

(** [template <typename T> void checkType(const T &value)]: [value] is not
    used, the function depends on [T] alone. *)
Definition checkType (T : ctype) : Out line unit :=
  cout (Type_ (rawName T)).

(** [template <typename T> void checkTypeDem(const T &value)]. *)
Definition checkTypeDem (T : ctype) : Out line unit :=
  cout (Demangled_Type (displayName T)).

(** [template <typename T> void compileTimeTypeCheck(const T &)]: the
    [if constexpr] chain over [std::is_same_v]. *)
Definition compileTimeTypeCheck (T : ctype) : Out line unit :=
  if is_same_v T t_int then cout Type_at_compile_time_is_int
  else if is_same_v T t_double then cout Type_at_compile_time_is_double
  else if is_same_v T (t_Id t_float) then cout Type_at_compile_time_is_Id_float
  else cout Type_at_compile_time_is_something_else.

(** [main]: [42] is an [int], [3.14] a [double], ["hello"] a [char[6]]
    (bound to [const T&], the array does not decay), [i] an [Id<float>] and
    [j] an [Id<double>]. *)
Definition main : Out line unit :=
  _ <- Id_ctor ;;
  checkType t_int ;;;
  checkType t_double ;;;
  checkType (t_char_array 6) ;;;
  checkType (t_Id t_float) ;;;
  checkTypeDem t_int ;;;
  checkTypeDem t_double ;;;
  checkTypeDem (t_char_array 6) ;;;
  checkTypeDem (t_Id t_float) ;;;
  _ <- Id_ctor ;;
  compileTimeTypeCheck t_int ;;;
  compileTimeTypeCheck t_double ;;;
  compileTimeTypeCheck (t_char_array 6) ;;;
  compileTimeTypeCheck (t_Id t_float) ;;;
  compileTimeTypeCheck (t_Id t_double).

End WithPlatform.

End typeChecks.

(** ** CTAD.cpp *)

Module CTAD.

(** *** Output *)

(** The operand of [std::cout << x] for a scalar [x]; turning it into
    characters is the stream's business. *)
Inductive printed : Type :=
| print_int (z : Z)
| print_double (d : float).

(** The statements that write to [std::cout]. *)
Inductive line : Type :=
| Default_constructor_of_TypedClass (name : option string)            (* lines 23-25 *)
| Parameterized_constructor_of_TypedClass (name : option string)      (* lines 29-31 *)
| Copy_constructor_of_TypedClass (name : option string) (val : printed) (* lines 37-39 *)
| Used_initializer_list_in_DynamicArray (name : option string)        (* lines 60-62 *)
| Element_line (j : Z) (i : printed)                                  (* j++ << ": " << i *)
| Dashes.                                                             (* "-----...-" *)

(** The statements with a demangled name for operand. *)
Definition null_name (l : line) : bool :=
  match l with
  | Default_constructor_of_TypedClass None
  | Parameterized_constructor_of_TypedClass None
  | Copy_constructor_of_TypedClass None _
  | Used_initializer_list_in_DynamicArray None => true
  | _ => false
  end.

(** The trace of the constructions of [TypedClass] objects: the lines the
    three constructors of [TypedClass] write, in program order. *)
Inductive event_kind : Set := Default | ValueInit | Copy.

Record ConstructionEvent : Type := mk_event {
  kind : event_kind;
  typeName : option string;      (* the name written between "TypedClass<" and ">" *)
  payload : option printed       (* what follows " with value " *)
}.

Definition event_of (l : line) : option ConstructionEvent :=
  match l with
  | Default_constructor_of_TypedClass n => Some (mk_event Default n None)
  | Parameterized_constructor_of_TypedClass n => Some (mk_event ValueInit n None)
  | Copy_constructor_of_TypedClass n v => Some (mk_event Copy n (Some v))
  | _ => None
  end.

Fixpoint trace (out : list line) : list ConstructionEvent :=
  match out with
  | [] => []
  | l :: rest =>
      match event_of l with
      | Some e => e :: trace rest
      | None => trace rest
      end
  end.

Definition kind_eqb (a b : event_kind) : bool :=
  match a, b with
  | Default, Default | ValueInit, ValueInit | Copy, Copy => true
  | _, _ => false
  end.

Definition events_of_kind (k : event_kind) (t : list ConstructionEvent) : list ConstructionEvent :=
  filter (fun e => kind_eqb (kind e) k) t.

(** *** Scalars *)

(** What the templates use of a scalar type [T]: its [typeid], the value of
    [T{}] and [operator<<]. Copying a scalar writes nothing. *)
Class Scalar (T : Type) : Type := {
  scalar_type : ctype;
  zero : T;
  shown : T -> printed
}.

(** [int]. Only literals and the loop counters are of this type, nothing is
    computed that could overflow. *)
#[export] Instance int_Scalar : Scalar Z := {|
  scalar_type := t_int;
  zero := 0;
  shown := print_int
|}.

(** [double], as IEEE 754 binary64. *)
#[export] Instance double_Scalar : Scalar float := {|
  scalar_type := t_double;
  zero := 0%float;
  shown := print_double
|}.

(** *** template <class T> class TypedClass *)

(** [T] ranges over the scalar types: the constructors copy a [T] and the
    copy constructor writes one with [operator<<]; the source instantiates
    [TypedClass<double>] only. *)

Record TypedClass (T : Type) : Type := mk_TypedClass {
  val : T
}.
Arguments mk_TypedClass {T} val.
Arguments val {T} t.

Section TypedClass_members.
Context {P : Platform} {T : Type} {S : Scalar T}.

(** [TypedClass()]: [val] is left uninitialised; [indeterminate] stands for
    whatever its storage holds. *)
Definition TypedClass_default (indeterminate : T) : Out line (TypedClass T) :=
  cout (Default_constructor_of_TypedClass (displayName scalar_type)) ;;;
  ret {| val := indeterminate |}.

(** [TypedClass(const T &x) : val(x)]. *)
Definition TypedClass_from_value (x : T) : Out line (TypedClass T) :=
  let this := {| val := x |} in
  cout (Parameterized_constructor_of_TypedClass (displayName scalar_type)) ;;;
  ret this.

(** [TypedClass(const TypedClass &obj) : val(obj.val)]. *)
Definition TypedClass_copy (obj : TypedClass T) : Out line (TypedClass T) :=
  let this := {| val := val obj |} in
  cout (Copy_constructor_of_TypedClass (displayName scalar_type) (shown (val this))) ;;;
  ret this.

(** [T getData() const { return val; }] *)
Definition getData (this : TypedClass T) : T := val this.

End TypedClass_members.

(** *** std::vector *)

(** What [std::vector<E>] and [DynamicArray<E>] use of an element type:
    its [typeid] and its copy constructor. *)
Class Element (E : Type) : Type := {
  element_type : ctype;
  copy_construct : E -> Out line E
}.

#[export] Instance scalar_Element {T : Type} {S : Scalar T} : Element T := {|
  element_type := scalar_type;
  copy_construct := fun x => ret x
|}.

#[export] Instance TypedClass_Element {P : Platform} {T : Type} {S : Scalar T} :
  Element (TypedClass T) := {|
  element_type := t_TypedClass scalar_type;
  copy_construct := TypedClass_copy
|}.

(** [E{}]. Scalars are zero-initialised; for [TypedClass<T>] see
    [TypedClass_ValueInitializable] below. *)
Class ValueInitializable (E : Type) : Type := {
  value_initialize : Out line E
}.

#[export] Instance scalar_ValueInitializable {T : Type} {S : Scalar T} :
  ValueInitializable T := {|
  value_initialize := ret zero
|}.

(** [TypedClass<T>{}] runs the user-provided [TypedClass()]; [indeterminate]
    is what the storage of [val] holds. Not an instance: the value has to be
    named. *)
Definition TypedClass_ValueInitializable
  {P : Platform} {T : Type} {S : Scalar T} (indeterminate : T) :
  ValueInitializable (TypedClass T) := {|
  value_initialize := TypedClass_default indeterminate
|}.

Section vector.
Context {E : Type} {EE : Element E}.

(** [std::vector<E>(n, value)]: [n] elements, each copy-constructed from
    [value], in index order. *)
Fixpoint vector_fill (n : nat) (value : E) : Out line (list E) :=
  match n with
  | O => ret []
  | S n' =>
      x <- copy_construct value ;;
      xs <- vector_fill n' value ;;
      ret (x :: xs)
  end.

(** [std::vector<E>(std::initializer_list<E>)]: one element copy-constructed
    from each element of the list, in order. *)
Fixpoint vector_from_list (init : list E) : Out line (list E) :=
  match init with
  | [] => ret []
  | i :: rest =>
      x <- copy_construct i ;;
      xs <- vector_from_list rest ;;
      ret (x :: xs)
  end.

End vector.

(** *** template <class T> class DynamicArray *)

Record DynamicArray (T : Type) : Type := mk_DynamicArray {
  arr : list T
}.
Arguments mk_DynamicArray {T} arr.
Arguments arr {T} d.

(** [size_t] is 64 bits wide. *)
Definition size_t_modulus : Z := 2 ^ 64.

Section DynamicArray_members.
Context {P : Platform} {T : Type} {ET : Element T}.

(** [DynamicArray() : arr() {}] *)
Definition DynamicArray_default : Out line (DynamicArray T) :=
  ret {| arr := [] |}.

(** [DynamicArray(size_t sz) : arr(sz, T{}) {}] *)
Definition DynamicArray_sized {VT : ValueInitializable T} (sz : N) : Out line (DynamicArray T) :=
  t <- value_initialize ;;
  a <- vector_fill (N.to_nat sz) t ;;
  ret {| arr := a |}.

(** [DynamicArray(std::initializer_list<T> init) : arr(init)], then the
    message. *)
Definition DynamicArray_initializer_list (init : list T) : Out line (DynamicArray T) :=
  a <- vector_from_list init ;;
  cout (Used_initializer_list_in_DynamicArray (displayName element_type)) ;;;
  ret {| arr := a |}.

(** [DynamicArray(size_t sz, const T &val) : arr(sz, val) {}] *)
Definition DynamicArray_fill (sz : N) (val : T) : Out line (DynamicArray T) :=
  a <- vector_fill (N.to_nat sz) val ;;
  ret {| arr := a |}.

(** [std::vector<T> &getArr() { return arr; }] *)
Definition getArr (this : DynamicArray T) : list T := arr this.

End DynamicArray_members.

(** [DynamicArray x(sz, v)] for a scalar [v] of type [T], as the guide of
    line 78 reads it: [DynamicArray<TypedClass<T>> x(sz, v)]. The parameter
    [const TypedClass<T> &val] binds to the temporary [TypedClass<T>(v)]. *)
Definition DynamicArray_of_count_and_value
  {P : Platform} {T : Type} {S : Scalar T} (sz : N) (v : T) :
  Out line (DynamicArray (TypedClass T)) :=
  val <- TypedClass_from_value v ;;
  DynamicArray_fill sz val.

(** *** The declarations [DynamicArray x(...)] and [DynamicArray x{...}] *)

(** The scalar types of the literals of [main]. *)
Inductive scalar : Set := s_int | s_double.

Definition carrier (s : scalar) : Type :=
  match s with s_int => Z | s_double => float end.

Definition carrier_Scalar (s : scalar) : Scalar (carrier s) :=
  match s with s_int => int_Scalar | s_double => double_Scalar end.

Definition scalar_ctype (s : scalar) : ctype :=
  match s with s_int => t_int | s_double => t_double end.

(** The element types [main] instantiates [DynamicArray] with: a scalar or
    a [TypedClass] of a scalar. *)
Inductive etype : Set :=
| Plain (s : scalar)
| Cell (s : scalar).

Definition eobj (e : etype) : Type :=
  match e with
  | Plain s => carrier s
  | Cell s => TypedClass (carrier s)
  end.

Definition ctype_of (e : etype) : ctype :=
  match e with
  | Plain s => scalar_ctype s
  | Cell s => t_TypedClass (scalar_ctype s)
  end.

(** [DynamicArray<TypedClass<TypedClass<T>>>] cannot be populated: the copy
    constructor of its elements would need an [operator<<] for
    [TypedClass<T>], and none is declared. *)
Definition etype_of (E : ctype) : option etype :=
  match E with
  | t_int => Some (Plain s_int)
  | t_double => Some (Plain s_double)
  | t_TypedClass t_int => Some (Cell s_int)
  | t_TypedClass t_double => Some (Cell s_double)
  | _ => None
  end.

Definition eobj_Element {P : Platform} (e : etype) : Element (eobj e) :=
  match e with
  | Plain s => @scalar_Element (carrier s) (carrier_Scalar s)
  | Cell s => @TypedClass_Element P (carrier s) (carrier_Scalar s)
  end.

(** A literal, as [main] writes them: [10], [1.3]. *)
Inductive literal : Type :=
| int_literal (z : Z)
| double_literal (d : float).

Definition INT_MAX : Z := 2147483647.

(** The type of a literal; a decimal literal above [INT_MAX] is not an
    [int] and is not covered. *)
Definition literal_scalar (l : literal) : option scalar :=
  match l with
  | int_literal z => if (0 <=? z) && (z <=? INT_MAX) then Some s_int else None
  | double_literal _ => Some s_double
  end.

(** An argument of the declaration: a literal [l], or the temporary
    [TypedClass{l}]. *)
Inductive argument : Type :=
| plain (l : literal)
| TypedClass_braced (l : literal).

(** [DynamicArray<T> x;], [DynamicArray x(a, b)], [DynamicArray x{a, b, c}]. *)
Inductive initializer : Type :=
| default_init
| parens (args : list argument)
| braces (args : list argument).

Definition arguments_of (i : initializer) : list argument :=
  match i with
  | default_init => []
  | parens args | braces args => args
  end.

(** The type of an argument. For [TypedClass{l}] the class template argument
    is deduced from [TypedClass(const T &)]. *)
Definition argument_type (a : argument) : option ctype :=
  match a with
  | plain l => option_map scalar_ctype (literal_scalar l)
  | TypedClass_braced l =>
      option_map (fun s => t_TypedClass (scalar_ctype s)) (literal_scalar l)
  end.

Fixpoint all_some {A : Type} (l : list (option A)) : option (list A) :=
  match l with
  | [] => Some []
  | Some a :: rest => option_map (cons a) (all_some rest)
  | None :: _ => None
  end.

Definition argument_types (args : list argument) : option (list ctype) :=
  all_some (map argument_type args).

(** **** Implicit conversions of the arguments *)

Inductive conversion : Set :=
| no_conversion
| converts (narrowing : bool).

(** To [size_t], the type of the parameter [sz]. An [int] literal is a
    non-negative constant and fits; floating to integer is narrowing. *)
Definition to_size_t_conversion (from : ctype) : conversion :=
  match from with
  | t_int => converts false
  | t_double => converts true
  | _ => no_conversion
  end.

(** Between the two scalar types. An [int] literal is represented exactly
    in a [double]. *)
Definition scalar_conversion (from to : ctype) : conversion :=
  match from, to with
  | t_int, t_int | t_double, t_double | t_int, t_double => converts false
  | t_double, t_int => converts true
  | _, _ => no_conversion
  end.

(** To the element type [to]: the identity, a standard conversion, or a
    standard conversion followed by the converting constructor
    [TypedClass(const T &)] (at most one constructor in a sequence). *)
Definition element_conversion (from to : ctype) : conversion :=
  if is_same_v from to then converts false
  else
    match to with
    | t_TypedClass T => scalar_conversion from T
    | _ => scalar_conversion from to
    end.

Definition is_narrowing (c : conversion) : bool :=
  match c with converts true => true | _ => false end.

Definition is_viable (c : conversion) : bool :=
  match c with converts _ => true | no_conversion => false end.

(** **** Class template argument deduction *)

(** The deduction candidates of [DynamicArray]: one per constructor, and the
    guide of line 78. (The copy deduction candidate needs an argument that is
    a [DynamicArray]; no argument here is.) *)
Inductive guide : Set :=
| guide_of_default_ctor            (* DynamicArray() -> DynamicArray<T> *)
| guide_of_sized_ctor              (* DynamicArray(size_t) -> DynamicArray<T> *)
| guide_of_initializer_list_ctor   (* DynamicArray(std::initializer_list<T>) -> DynamicArray<T> *)
| guide_of_fill_ctor               (* DynamicArray(size_t, const T &) -> DynamicArray<T> *)
| guide_line_78.                   (* DynamicArray(size_t, T) -> DynamicArray<TypedClass<T>> *)

Definition all_guides : list guide :=
  [guide_of_default_ctor; guide_of_sized_ctor; guide_of_initializer_list_ctor;
   guide_of_fill_ctor; guide_line_78].

(** The element type a candidate deduces from arguments passed one by one.
    [T] occurs in no parameter of the first two; a scalar or a [TypedClass]
    is not a [std::initializer_list]. *)
Definition deduce (g : guide) (args : list ctype) : option ctype :=
  match g, args with
  | guide_of_fill_ctor, [a; b] =>
      if is_viable (to_size_t_conversion a) then Some b else None
  | guide_line_78, [a; b] =>
      if is_viable (to_size_t_conversion a) then Some (t_TypedClass b) else None
  | _, _ => None
  end.

(** [std::initializer_list<T>] against the whole braced list: every element
    has to deduce the same [T]. *)
Definition deduce_from_list (args : list ctype) : option ctype :=
  match args with
  | [] => None
  | a :: rest => if forallb (is_same_v a) rest then Some a else None
  end.

Definition is_deduction_guide (g : guide) : bool :=
  match g with guide_line_78 => true | _ => false end.

Definition candidates (args : list ctype) : list (guide * ctype) :=
  flat_map
    (fun g => match deduce g args with Some E => [(g, E)] | None => [] end)
    all_guides.

(** The candidates that deduce convert the arguments alike ([size_t] for
    the first, the identity for the second), so the last tie-breaker decides:
    a candidate generated from a deduction guide is better than one that is
    not. *)
Definition best_candidate (cs : list (guide * ctype)) : option (guide * ctype) :=
  match filter (fun c => is_deduction_guide (fst c)) cs with
  | [c] => Some c
  | _ => match cs with [c] => Some c | _ => None end
  end.

(** The element type [E] of the [DynamicArray<E>] a declaration without
    template arguments declares. A braced list is first matched as a whole
    against the initializer-list constructor; only if that fails are its
    elements passed one by one, and then without narrowing. *)
Definition class_template_argument_deduction (i : initializer) : option ctype :=
  match i with
  | default_init => None
  | parens args =>
      match argument_types args with
      | Some ts => option_map snd (best_candidate (candidates ts))
      | None => None
      end
  | braces args =>
      match argument_types args with
      | Some ts =>
          match deduce_from_list ts with
          | Some E => Some E
          | None =>
              match best_candidate (candidates ts), ts with
              | Some (_, E), a :: _ =>
                  if is_narrowing (to_size_t_conversion a) then None else Some E
              | _, _ => None
              end
          end
      | None => None
      end
  end.

(** **** Overload resolution among the constructors of [DynamicArray<E>] *)

Inductive constructor : Set :=
| ctor_default              (* line 52 *)
| ctor_sized                (* line 55 *)
| ctor_initializer_list     (* line 58 *)
| ctor_fill.                (* line 66 *)

(** Arguments passed one by one: [(size_t)] or [(size_t, const E &)]. In
    list-initialization a narrowing conversion makes the program ill-formed. *)
Definition select_by_arguments (list_init : bool) (E : ctype) (args : list ctype) :
  option constructor :=
  match args with
  | [a] =>
      match to_size_t_conversion a with
      | converts n => if list_init && n then None else Some ctor_sized
      | no_conversion => None
      end
  | [a; b] =>
      match to_size_t_conversion a, element_conversion b E with
      | converts n1, converts n2 =>
          if list_init && (n1 || n2) then None else Some ctor_fill
      | _, _ => None
      end
  | _ => None
  end.

(** A non-empty braced list goes to the initializer-list constructor whenever
    every element converts to [E]; the other constructors are considered only
    if it does not. An empty braced list value-initialises the object. *)
Definition select_constructor (E : ctype) (i : initializer) : option constructor :=
  match i with
  | default_init => Some ctor_default
  | parens args =>
      match argument_types args with
      | Some ts => select_by_arguments false E ts
      | None => None
      end
  | braces [] => Some ctor_default
  | braces args =>
      match argument_types args with
      | Some ts =>
          let cs := map (fun a => element_conversion a E) ts in
          if forallb is_viable cs then
            if existsb is_narrowing cs then None else Some ctor_initializer_list
          else select_by_arguments true E ts
      | None => None
      end
  end.

(** **** Running the selected constructor *)

(** [int] to [double]. *)
Definition int_to_double (z : Z) : float :=
  if z <? 0 then PrimFloat.opp (PrimFloat.of_uint63 (Uint63.of_Z (- z)))
  else PrimFloat.of_uint63 (Uint63.of_Z z).

(** The value of a literal converted to the scalar type [s]. The
    truncation of a [double] is not covered. *)
Definition convert_literal (l : literal) (s : scalar) : option (carrier s) :=
  match s return option (carrier s) with
  | s_int =>
      match l with
      | int_literal z => Some z
      | double_literal _ => None
      end
  | s_double =>
      match l with
      | int_literal z => Some (int_to_double z)
      | double_literal d => Some d
      end
  end.

(** [double] to [size_t]: the value is truncated towards zero; the
    conversion is undefined when the result is not a [size_t] (a negative
    one, an infinity, a NaN). Counts above [INT_MAX], for which the vector
    would first have to find the memory, are left out as for [int] literals. *)
Definition double_to_size_t (d : float) : option N :=
  match Prim2SF d with
  | S754_zero _ => Some 0%N
  | S754_finite negative m e =>
      let t := if 0 <=? e then Z.pos m * 2 ^ e else Z.shiftr (Z.pos m) (- e) in
      if negative then (if t =? 0 then Some 0%N else None)
      else if t <=? INT_MAX then Some (Z.to_N t) else None
  | _ => None
  end.

(** The value of a literal converted to [size_t], the type of [sz]. *)
Definition count_of (a : argument) : option N :=
  match a with
  | plain (int_literal z) => Some (Z.to_N (z mod size_t_modulus))
  | plain (double_literal d) => double_to_size_t d
  | TypedClass_braced _ => None
  end.

Definition scalar_eqb (a b : scalar) : bool :=
  match a, b with
  | s_int, s_int | s_double, s_double => true
  | _, _ => false
  end.

Section Running.
Context {P : Platform}.

(** What the storage of a scalar holds before it is initialised. *)
Definition indeterminate (s : scalar) : carrier s :=
  match s with
  | s_int => indeterminate_int
  | s_double => indeterminate_double
  end.

(** The object of type [e] that an argument initialises (an element of the
    array behind a [std::initializer_list], or the temporary bound to
    [const E &val]). A literal converts to a [TypedClass] through
    [TypedClass(const T &)]; [TypedClass{l}] is that object itself, no copy
    is made of a prvalue. *)
Definition initialize_from (e : etype) (a : argument) : option (Out line (eobj e)) :=
  match e return option (Out line (eobj e)) with
  | Plain s =>
      match a with
      | plain l => option_map (fun x => ret x) (convert_literal l s)
      | TypedClass_braced _ => None
      end
  | Cell s =>
      match a with
      | plain l =>
          option_map (@TypedClass_from_value P (carrier s) (carrier_Scalar s))
                     (convert_literal l s)
      | TypedClass_braced l =>
          match literal_scalar l with
          | Some s' =>
              if scalar_eqb s' s then
                option_map (@TypedClass_from_value P (carrier s) (carrier_Scalar s))
                           (convert_literal l s)
              else None
          | None => None
          end
      end
  end.

Fixpoint sequence {A : Type} (ms : list (Out line A)) : Out line (list A) :=
  match ms with
  | [] => ret []
  | m :: rest =>
      x <- m ;;
      xs <- sequence rest ;;
      ret (x :: xs)
  end.

Definition run_constructor (e : etype) (c : constructor) (args : list argument) :
  option (Out line (DynamicArray (eobj e))) :=
  match c with
  | ctor_default =>
      match args with
      | [] => Some (@DynamicArray_default (eobj e))
      | _ => None
      end
  | ctor_sized =>
      match args with
      | [a] =>
          match e return option (Out line (DynamicArray (eobj e))) with
          | Plain s =>
              option_map
                (@DynamicArray_sized (carrier s)
                   (@scalar_Element (carrier s) (carrier_Scalar s))
                   (@scalar_ValueInitializable (carrier s) (carrier_Scalar s)))
                (count_of a)
          | Cell s =>
              option_map
                (@DynamicArray_sized (TypedClass (carrier s))
                   (@TypedClass_Element P (carrier s) (carrier_Scalar s))
                   (@TypedClass_ValueInitializable P (carrier s) (carrier_Scalar s)
                      (indeterminate s)))
                (count_of a)
          end
      | _ => None
      end
  | ctor_initializer_list =>
      option_map
        (fun ms =>
           init <- sequence ms ;;
           @DynamicArray_initializer_list P (eobj e) (eobj_Element e) init)
        (all_some (map (initialize_from e) args))
  | ctor_fill =>
      match args with
      | [a; b] =>
          match count_of a, initialize_from e b with
          | Some sz, Some m =>
              Some (val <- m ;; @DynamicArray_fill (eobj e) (eobj_Element e) sz val)
          | _, _ => None
          end
      | _ => None
      end
  end.

(** [DynamicArray<E> x ...;] with the element type written out. *)
Definition construct_as (e : etype) (i : initializer) :
  option (Out line (DynamicArray (eobj e))) :=
  match select_constructor (ctype_of e) i with
  | Some c => run_constructor e c (arguments_of i)
  | None => None
  end.

(** A [DynamicArray] together with its element type. *)
Record container : Type := mk_container {
  element : etype;
  storage : DynamicArray (eobj element)
}.

(** [DynamicArray x ...;]: the element type is deduced, then the constructor
    selected and run. [None]: the declaration is ill-formed, or is outside
    the argument forms covered here. *)
Definition construct (i : initializer) : option (Out line container) :=
  match class_template_argument_deduction i with
  | Some E =>
      match etype_of E with
      | Some e =>
          match construct_as e i with
          | Some m => Some (d <- m ;; ret (mk_container e d))
          | None => None
          end
      | None => None
      end
  | None => None
  end.

(** The number of elements and the values held, whatever the element type. *)
Definition size (c : container) : nat := List.length (arr (storage c)).

Definition held_values (c : container) : list printed :=
  match c with
  | mk_container (Plain s) d => map (@shown _ (carrier_Scalar s)) (arr d)
  | mk_container (Cell s) d =>
      map (fun i => @shown _ (carrier_Scalar s) (getData i)) (arr d)
  end.

(** The loops of [main]:
    [for (int j = 0; const auto &i : x.getArr()) std::cout << j++ << ": " << i],
    with [i.getData()] for [i] where the elements are [TypedClass]. *)
Fixpoint print_from (j : Z) (values : list printed) : Out line unit :=
  match values with
  | [] => ret tt
  | v :: rest => cout (Element_line j v) ;;; print_from (j + 1) rest
  end.

Definition declare_and_print (i : initializer) : option (Out line unit) :=
  option_map
    (fun m => x <- m ;; print_from 0 (held_values x) ;;; cout Dashes)
    (construct i).

(** [main]: the five declarations, each followed by its loop. *)
Definition main : option (Out line unit) :=
  option_map (fun ms => sequence ms ;;; ret tt)
    (all_some
       (map declare_and_print
          [ braces [plain (int_literal 0)];
            braces [plain (double_literal 10.0); plain (double_literal 1.3)];
            braces [plain (int_literal 10); plain (double_literal 1.3)];
            braces [TypedClass_braced (double_literal 10.34);
                    TypedClass_braced (double_literal 9.23);
                    TypedClass_braced (double_literal 3.14)];
            parens [plain (int_literal 5); plain (double_literal 1.3)] ])).

End Running.

(** A statement with its name operand left out. *)
Definition without_name (l : line) : line :=
  match l with
  | Default_constructor_of_TypedClass _ => Default_constructor_of_TypedClass None
  | Parameterized_constructor_of_TypedClass _ =>
      Parameterized_constructor_of_TypedClass None
  | Copy_constructor_of_TypedClass _ v => Copy_constructor_of_TypedClass None v
  | Used_initializer_list_in_DynamicArray _ =>
      Used_initializer_list_in_DynamicArray None
  | Element_line j i => Element_line j i
  | Dashes => Dashes
  end.

(** The forms of declaration that [construct] accepts. *)
Inductive accepted : initializer -> Prop :=
| accepted_count_and_value (s : scalar) (z : Z) (v : literal) :
    0 <= z <= INT_MAX ->
    literal_scalar v = Some s ->
    accepted (parens [plain (int_literal z); plain v])
| accepted_double_count_and_value (s : scalar) (d : float) (n : N) (v : literal) :
    double_to_size_t d = Some n ->
    literal_scalar v = Some s ->
    accepted (parens [plain (double_literal d); plain v])
| accepted_scalars (s : scalar) (ls : list literal) :
    ls <> [] ->
    Forall (fun l => literal_scalar l = Some s) ls ->
    accepted (braces (map plain ls))
| accepted_cells (s : scalar) (ls : list literal) :
    ls <> [] ->
    Forall (fun l => literal_scalar l = Some s) ls ->
    accepted (braces (map TypedClass_braced ls))
| accepted_int_and_double (z : Z) (d : float) :
    0 <= z <= INT_MAX ->
    accepted (braces [plain (int_literal z); plain (double_literal d)]).

End CTAD.


(** * Properties *)

Import CTAD.

(** ** The two programs on the sample run-time library *)

Example typeChecks_main_output :
  @typeChecks.main sample_abi =
    (tt,
     [ typeChecks.Hello_from_Id;
       typeChecks.Type_ "i"; typeChecks.Type_ "d"; typeChecks.Type_ "A6_c";
       typeChecks.Type_ "2IdIfE";
       typeChecks.Demangled_Type (Some "int");
       typeChecks.Demangled_Type (Some "double");
       typeChecks.Demangled_Type (Some "char [6]");
       typeChecks.Demangled_Type (Some "Id<float>");
       typeChecks.Hello_from_Id;
       typeChecks.Type_at_compile_time_is_int;
       typeChecks.Type_at_compile_time_is_double;
       typeChecks.Type_at_compile_time_is_something_else;
       typeChecks.Type_at_compile_time_is_Id_float;
       typeChecks.Type_at_compile_time_is_something_else ]).
Proof. reflexivity. Qed.

Example CTAD_main_output :
  option_map (fun m => trace (output m)) (@main sample_abi) =
    Some
      ([ mk_event ValueInit (Some "double") None;
         mk_event ValueInit (Some "double") None;
         mk_event Copy (Some "double") (Some (print_double 10));
         mk_event Copy (Some "double") (Some (print_double 1.3)) ]
       ++ [ mk_event ValueInit (Some "double") None;
            mk_event ValueInit (Some "double") None;
            mk_event ValueInit (Some "double") None;
            mk_event Copy (Some "double") (Some (print_double 10.34));
            mk_event Copy (Some "double") (Some (print_double 9.23));
            mk_event Copy (Some "double") (Some (print_double 3.14)) ]
       ++ mk_event ValueInit (Some "double") None
          :: repeat (mk_event Copy (Some "double") (Some (print_double 1.3))) 5).
Proof. reflexivity. Qed.

(** ** Type identity and dispatch (typeChecks.cpp) *)

Lemma is_same_v_refl (A : ctype) : is_same_v A A = true.
Proof.
  induction A; simpl; auto using Nat.eqb_refl.
Qed.

Lemma is_same_v_eq (A B : ctype) : is_same_v A B = true <-> A = B.
Proof.
  split.
  - revert B; induction A; intros [] H; simpl in H; try discriminate;
      try reflexivity; try (f_equal; auto).
    now apply Nat.eqb_eq.
  - intros <-. apply is_same_v_refl.
Qed.

Lemma is_same_v_neq (A B : ctype) : is_same_v A B = false <-> A <> B.
Proof.
  rewrite <- is_same_v_eq. destruct (is_same_v A B); split; congruence.
Qed.

(** C7. [compileTimeTypeCheck<T>] writes exactly one line, whatever [T] is.
    The line of a registered case is written if and only if [T] is that very
    type ([int], [double], [Id<float>]), and the line of the final [else] if
    and only if [T] is none of the three: types that merely convert to a
    registered one ([float], [size_t]) or instantiate the same template
    ([Id<double>]) get the default. *)
Theorem compileTimeTypeCheck_dispatches_on_the_exact_type :
  forall (P : Platform) (T : ctype),
    exists h : typeChecks.line,
      typeChecks.compileTimeTypeCheck T = (tt, [h]) /\
      (h = typeChecks.Type_at_compile_time_is_int <-> T = t_int) /\
      (h = typeChecks.Type_at_compile_time_is_double <-> T = t_double) /\
      (h = typeChecks.Type_at_compile_time_is_Id_float <-> T = t_Id t_float) /\
      (h = typeChecks.Type_at_compile_time_is_something_else <->
         T <> t_int /\ T <> t_double /\ T <> t_Id t_float) /\
      Forall
        (fun U => typeChecks.compileTimeTypeCheck U =
                  (tt, [typeChecks.Type_at_compile_time_is_something_else]))
        [t_float; t_size_t; t_char_array 6; t_Id t_double; t_Id t_int;
         t_TypedClass t_double].
Proof.
  intros P T. unfold typeChecks.compileTimeTypeCheck.
  destruct (is_same_v T t_int) eqn:Hi.
  { apply is_same_v_eq in Hi; subst T.
    eexists; split; [reflexivity|].
    repeat split; try congruence; try discriminate; try tauto;
      repeat constructor. }
  destruct (is_same_v T t_double) eqn:Hd.
  { apply is_same_v_eq in Hd; subst T.
    eexists; split; [reflexivity|].
    repeat split; try congruence; try discriminate; try tauto;
      repeat constructor. }
  destruct (is_same_v T (t_Id t_float)) eqn:Hf.
  { apply is_same_v_eq in Hf; subst T.
    eexists; split; [reflexivity|].
    repeat split; try congruence; try discriminate; try tauto;
      repeat constructor. }
  apply is_same_v_neq in Hi, Hd, Hf.
  eexists; split; [reflexivity|].
  repeat split; try congruence; try discriminate; try tauto;
    repeat constructor.
Qed.


(** ** TypedClass *)

(** C9. A cell constructed from [x] holds [x]; a cell copy-constructed from
    [c] holds what [c] holds, and is the same cell value; [getData] returns
    the held value and, being a [const] member that returns by value, leaves
    the cell as it was: reading it again, or copying it after reading it,
    gives the same value. *)
Theorem TypedClass_holds_its_value :
  forall (P : Platform) (T : Type) (S : Scalar T),
    (forall x : T, getData (result (TypedClass_from_value x)) = x) /\
    (forall c : TypedClass T,
        getData (result (TypedClass_copy c)) = getData c /\
        result (TypedClass_copy c) = c) /\
    (forall c : TypedClass T, getData c = val c).
Proof.
  intros P T S. split; [|split].
  - intros x. reflexivity.
  - intros [v]. split; reflexivity.
  - intros c. reflexivity.
Qed.

(** ** std::vector and the trace *)

Lemma trace_app (l1 l2 : list line) : trace (l1 ++ l2) = trace l1 ++ trace l2.
Proof.
  induction l1 as [|l l1 IH]; simpl; [reflexivity|].
  destruct (event_of l); simpl; now rewrite IH.
Qed.

Lemma bind_ret_l {L A B : Type} (a : A) (k : A -> Out L B) :
  bind (ret a) k = k a.
Proof.
  unfold bind, ret. destruct (k a). reflexivity.
Qed.

Section vector_facts.
Context {P : Platform} {T : Type} {S : Scalar T}.

Lemma vector_fill_scalar (n : nat) (v : T) :
  vector_fill n v = (repeat v n, []).
Proof.
  induction n as [|n IH]; simpl; [reflexivity|].
  rewrite IH. reflexivity.
Qed.

Lemma vector_from_list_scalar (vs : list T) :
  vector_from_list vs = (vs, []).
Proof.
  induction vs as [|v vs IH]; simpl; [reflexivity|].
  rewrite IH. reflexivity.
Qed.

Lemma vector_fill_TypedClass (n : nat) (c : TypedClass T) :
  vector_fill n c =
    (repeat c n,
     repeat (Copy_constructor_of_TypedClass (displayName scalar_type) (shown (val c))) n).
Proof.
  destruct c as [v].
  induction n as [|n IH]; simpl; [reflexivity|].
  rewrite IH. cbn. now rewrite app_nil_r.
Qed.

Lemma vector_from_list_TypedClass (cs : list (TypedClass T)) :
  vector_from_list cs =
    (cs,
     map (fun c => Copy_constructor_of_TypedClass (displayName scalar_type) (shown (val c))) cs).
Proof.
  induction cs as [|c cs IH]; simpl; [reflexivity|].
  rewrite IH. destruct c as [v]. cbn. now rewrite app_nil_r.
Qed.


Lemma trace_repeat_copy (n : nat) (name : option string) (v : printed) :
  trace (repeat (Copy_constructor_of_TypedClass name v) n) =
    repeat (mk_event Copy name (Some v)) n.
Proof.
  induction n as [|n IH]; simpl; [reflexivity|]. now rewrite IH.
Qed.

Lemma sequence_ret (vs : list T) :
  sequence (map (fun x => ret x) vs) = (vs, []).
Proof.
  induction vs as [|v vs IH]; simpl; [reflexivity|].
  rewrite IH. reflexivity.
Qed.

Lemma sequence_from_value (vs : list T) :
  sequence (map TypedClass_from_value vs) =
    (map mk_TypedClass vs,
     map (fun _ => Parameterized_constructor_of_TypedClass (displayName scalar_type)) vs).
Proof.
  induction vs as [|v vs IH]; simpl; [reflexivity|].
  rewrite IH. cbn. now rewrite app_nil_r.
Qed.

End vector_facts.

Lemma events_of_kind_repeat (k : event_kind) (e : ConstructionEvent) (n : nat) :
  kind e = k -> events_of_kind k (repeat e n) = repeat e n.
Proof.
  intros <-. induction n as [|n IH]; simpl; [reflexivity|].
  unfold events_of_kind in *. simpl.
  destruct (kind e); simpl; now rewrite IH.
Qed.


(** ** Declarations *)

Lemma literal_scalar_int (z : Z) :
  0 <= z <= INT_MAX -> literal_scalar (int_literal z) = Some s_int.
Proof.
  intros [H0 H1]. unfold literal_scalar.
  apply Z.leb_le in H0, H1. now rewrite H0, H1.
Qed.

Lemma count_of_int (z : Z) :
  0 <= z <= INT_MAX -> count_of (plain (int_literal z)) = Some (Z.to_N z).
Proof.
  intros H. unfold count_of, size_t_modulus, INT_MAX in *.
  rewrite Z.mod_small by lia. reflexivity.
Qed.

Lemma convert_literal_same (v : literal) (s : scalar) :
  literal_scalar v = Some s -> exists x : carrier s, convert_literal v s = Some x.
Proof.
  destruct v as [z|d], s; simpl; intros H; try discriminate; eauto.
Qed.

Lemma etype_of_Cell (s : scalar) :
  etype_of (t_TypedClass (scalar_ctype s)) = Some (Cell s).
Proof.
  destruct s; reflexivity.
Qed.

Lemma etype_of_Plain (s : scalar) : etype_of (scalar_ctype s) = Some (Plain s).
Proof.
  destruct s; reflexivity.
Qed.

Lemma argument_types_count_and_value (z : Z) (v : literal) (s : scalar) :
  0 <= z <= INT_MAX ->
  literal_scalar v = Some s ->
  argument_types [plain (int_literal z); plain v] = Some [t_int; scalar_ctype s].
Proof.
  intros Hz Hv. unfold argument_types. cbn [map argument_type].
  rewrite (literal_scalar_int z Hz), Hv. reflexivity.
Qed.

(** Both the candidate of the fill constructor and the guide of line 78
    deduce from [(int, T)]; the guide wins. *)
Lemma deduction_from_count_and_value (z : Z) (v : literal) (s : scalar) :
  0 <= z <= INT_MAX ->
  literal_scalar v = Some s ->
  class_template_argument_deduction (parens [plain (int_literal z); plain v]) =
    Some (t_TypedClass (scalar_ctype s)).
Proof.
  intros Hz Hv. unfold class_template_argument_deduction.
  rewrite (argument_types_count_and_value z v s Hz Hv). reflexivity.
Qed.

Lemma fill_constructor_selected (z : Z) (v : literal) (s : scalar) :
  0 <= z <= INT_MAX ->
  literal_scalar v = Some s ->
  select_constructor (ctype_of (Cell s)) (parens [plain (int_literal z); plain v]) =
    Some ctor_fill.
Proof.
  intros Hz Hv. unfold select_constructor.
  rewrite (argument_types_count_and_value z v s Hz Hv).
  destruct s; reflexivity.
Qed.

(** ** DynamicArray(size_t) *)

(** C4. For every scalar type [T] and every count [sz],
    [DynamicArray<T>(sz)] holds [sz] elements, each equal to [T{}], and
    writes nothing: the trace stays empty. A declaration
    [DynamicArray<T> x(z)] with an [int] literal [z] runs this constructor. *)
Theorem DynamicArray_sized_of_scalars :
  forall P : Platform,
    (forall (T : Type) (S : Scalar T) (sz : N),
        let d := DynamicArray_sized (T := T) sz in
        List.length (getArr (result d)) = N.to_nat sz /\
        Forall (fun x => x = zero) (getArr (result d)) /\
        output d = [] /\
        trace (output d) = []) /\
    (forall (s : scalar) (z : Z),
        0 <= z <= INT_MAX ->
        construct_as (Plain s) (parens [plain (int_literal z)]) =
          Some ({| arr := repeat (@zero _ (carrier_Scalar s)) (Z.to_nat z) |}, [])).
Proof.
  intros P. split.
  - intros T S sz d. subst d. unfold DynamicArray_sized.
    cbn [value_initialize scalar_ValueInitializable].
    rewrite bind_ret_l, vector_fill_scalar. cbn.
    repeat split.
    + apply repeat_length.
    + apply Forall_forall. intros x Hx. now apply repeat_spec in Hx.
  - intros s z Hz. unfold construct_as, select_constructor, argument_types.
    cbn [map argument_type]. rewrite (literal_scalar_int z Hz).
    cbn [option_map all_some select_by_arguments scalar_ctype
         to_size_t_conversion andb arguments_of run_constructor].
    rewrite (count_of_int z Hz). cbn [option_map].
    unfold DynamicArray_sized.
    cbn [value_initialize scalar_ValueInitializable].
    rewrite bind_ret_l, vector_fill_scalar, Z_N_nat. reflexivity.
Qed.

Lemma DynamicArray_sized_of_scalars_witness :
  @construct_as sample_abi (Plain s_int) (parens [plain (int_literal 3)]) =
    Some ({| arr := [0; 0; 0] |}, []).
Proof.
  apply (proj2 (DynamicArray_sized_of_scalars sample_abi) s_int 3).
  unfold INT_MAX. lia.
Defined.

(** ** DynamicArray(size_t, const T &) *)

(** What [DynamicArray x(z, v)] runs: one temporary [TypedClass<T>(v)] for
    the parameter [val], then [std::vector(z, val)]. *)
Lemma construct_count_and_value
  (P : Platform) (s : scalar) (z : Z) (v : literal) (x : carrier s) :
  0 <= z <= INT_MAX ->
  literal_scalar v = Some s ->
  convert_literal v s = Some x ->
  construct (parens [plain (int_literal z); plain v]) =
    Some (mk_container (Cell s) {| arr := repeat {| val := x |} (Z.to_nat z) |},
          Parameterized_constructor_of_TypedClass (displayName (scalar_ctype s))
          :: repeat (Copy_constructor_of_TypedClass (displayName (scalar_ctype s))
                       (@shown _ (carrier_Scalar s) x))
                    (Z.to_nat z)).
Proof.
  intros Hz Hv Hx.
  unfold construct.
  rewrite (deduction_from_count_and_value z v s Hz Hv), etype_of_Cell.
  unfold construct_as.
  rewrite (fill_constructor_selected z v s Hz Hv).
  cbn [arguments_of run_constructor].
  rewrite (count_of_int z Hz). cbn [initialize_from]. rewrite Hx.
  cbn [option_map]. unfold DynamicArray_fill.
  rewrite Z_N_nat.
  destruct s; cbn [eobj eobj_Element carrier carrier_Scalar] in *;
    unfold TypedClass_from_value, bind; cbn [cout ret];
    rewrite vector_fill_TypedClass; cbn; rewrite !app_nil_r; reflexivity.
Qed.

(** C2, as the specification states it, fails at [DynamicArray x(5, 1.3)]:
    the array does hold five cells with [1.3], but the trace has six events,
    one value construction followed by five copies, not ten events in
    ValueInit/Copy pairs. *)
Lemma five_copies_of_one_temporary :
  exists (c : container) (out : list line),
    @construct sample_abi
      (parens [plain (int_literal 5); plain (double_literal 1.3)]) = Some (c, out) /\
    size c = 5%nat /\
    held_values c = repeat (print_double 1.3) 5 /\
    map kind (trace out) = [ValueInit; Copy; Copy; Copy; Copy; Copy] /\
    map kind (trace out) <>
      [ValueInit; Copy; ValueInit; Copy; ValueInit; Copy; ValueInit; Copy;
       ValueInit; Copy] /\
    List.length (trace out) <> (2 * 5)%nat.
Proof.
  eexists. eexists. split; [reflexivity|].
  repeat split; try reflexivity; discriminate.
Qed.

(** C2, amended. For every scalar type [T], count [sz] and value [v],
    [DynamicArray<TypedClass<T>>(sz, v)] is an array of [sz] cells, each
    holding [v], and the trace has exactly [sz + 1] events: the value
    construction of the one temporary [TypedClass<T>(v)] that the parameter
    [val] binds to, followed by [sz] copies of it, one per element. A
    declaration [DynamicArray x(z, v)] with an [int] literal [z] and a
    literal [v] of scalar type [T] is resolved to exactly this construction. *)
Theorem parenthesized_count_and_value :
  forall P : Platform,
    (forall (T : Type) (S : Scalar T) (sz : N) (v : T),
        let name := displayName scalar_type in
        let m := DynamicArray_of_count_and_value sz v in
        getArr (result m) = repeat {| val := v |} (N.to_nat sz) /\
        List.length (getArr (result m)) = N.to_nat sz /\
        Forall (fun c => getData c = v) (getArr (result m)) /\
        output m =
          Parameterized_constructor_of_TypedClass name
          :: repeat (Copy_constructor_of_TypedClass name (shown v)) (N.to_nat sz) /\
        map kind (trace (output m)) = ValueInit :: repeat Copy (N.to_nat sz) /\
        List.length (trace (output m)) = Datatypes.S (N.to_nat sz)) /\
    (forall (s : scalar) (z : Z) (v : literal),
        0 <= z <= INT_MAX ->
        literal_scalar v = Some s ->
        class_template_argument_deduction (parens [plain (int_literal z); plain v]) =
          Some (t_TypedClass (scalar_ctype s)) /\
        select_constructor (t_TypedClass (scalar_ctype s))
          (parens [plain (int_literal z); plain v]) = Some ctor_fill /\
        exists x : carrier s,
          convert_literal v s = Some x /\
          construct (parens [plain (int_literal z); plain v]) =
            Some (mk_container (Cell s)
                    (result (@DynamicArray_of_count_and_value P (carrier s)
                               (carrier_Scalar s) (Z.to_N z) x)),
                  output (@DynamicArray_of_count_and_value P (carrier s)
                            (carrier_Scalar s) (Z.to_N z) x))).
Proof.
  intros P. split.
  - intros T S sz v name m. subst name m.
    unfold DynamicArray_of_count_and_value, DynamicArray_fill,
      TypedClass_from_value, bind. cbn [cout ret].
    rewrite vector_fill_TypedClass. cbn [result output fst snd getArr arr app val].
    rewrite !app_nil_r. cbn [trace event_of]. rewrite trace_repeat_copy.
    repeat split.
    + apply repeat_length.
    + apply Forall_forall. intros c Hc. apply repeat_spec in Hc. now subst c.
    + cbn [map kind]. now rewrite map_repeat.
    + cbn [List.length]. now rewrite repeat_length.
  - intros s z v Hz Hv. split; [|split].
    + exact (deduction_from_count_and_value z v s Hz Hv).
    + exact (fill_constructor_selected z v s Hz Hv).
    + destruct (convert_literal_same v s Hv) as [x Hx].
      exists x. split; [exact Hx|].
      rewrite (construct_count_and_value P s z v x Hz Hv Hx).
      unfold DynamicArray_of_count_and_value, DynamicArray_fill,
        TypedClass_from_value, bind. cbn [cout ret].
      rewrite vector_fill_TypedClass, Z_N_nat.
      cbn [result output fst snd app val]. rewrite ?app_nil_r.
      destruct s; reflexivity.
Qed.

Lemma parenthesized_count_and_value_witness :
  class_template_argument_deduction
    (parens [plain (int_literal 5); plain (double_literal 1.3)]) =
    Some (t_TypedClass t_double) /\
  exists x : float,
    convert_literal (double_literal 1.3) s_double = Some x /\
    @construct sample_abi
      (parens [plain (int_literal 5); plain (double_literal 1.3)]) =
      Some (mk_container (Cell s_double)
              (result (@DynamicArray_of_count_and_value sample_abi float
                         double_Scalar 5 x)),
            output (@DynamicArray_of_count_and_value sample_abi float
                      double_Scalar 5 x)).
Proof.
  destruct (proj2 (parenthesized_count_and_value sample_abi) s_double 5
              (double_literal 1.3)) as [Hd [_ Hc]].
  - unfold INT_MAX. lia.
  - reflexivity.
  - split; [exact Hd | exact Hc].
Defined.

(** C1, as the specification states it, fails at [DynamicArray arr2{10, 1.3}]:
    the initializer-list constructor is selected and the array holds two
    [TypedClass<double>] cells, but the trace has four events, not two: each
    cell of the list is value-constructed, then each is copied into the
    vector (the comment of lines 105-107 says as much). *)
Lemma mixed_braced_list_has_four_events :
  exists (c : container) (out : list line),
    @construct sample_abi
      (braces [plain (int_literal 10); plain (double_literal 1.3)]) = Some (c, out) /\
    element c = Cell s_double /\
    size c = 2%nat /\
    map kind (trace out) = [ValueInit; ValueInit; Copy; Copy] /\
    List.length (trace out) <> 2%nat.
Proof.
  eexists. eexists. split; [reflexivity|].
  repeat split; try reflexivity; discriminate.
Qed.

Lemma argument_types_int_and_double (z : Z) (d : float) :
  0 <= z <= INT_MAX ->
  argument_types [plain (int_literal z); plain (double_literal d)] =
    Some [t_int; t_double].
Proof.
  intros Hz.
  exact (argument_types_count_and_value z (double_literal d) s_double Hz eq_refl).
Qed.

(** C1, amended. For every [int] literal [z] and floating literal [d], the
    declaration [DynamicArray x{z, d}] is not matched by the
    initializer-list candidate during deduction (the two elements disagree
    on [T]), so the guide of line 78 gives [DynamicArray<TypedClass<double>>];
    its initializer-list constructor is then selected, not the fill
    constructor. The array holds exactly two cells, and the trace has exactly
    four events: the value construction of the two cells of the list, then
    their two copies into the vector. *)
Theorem mixed_braced_list_is_a_list_of_cells :
  forall (P : Platform) (z : Z) (d : float),
    0 <= z <= INT_MAX ->
    let i := braces [plain (int_literal z); plain (double_literal d)] in
    let name := displayName t_double in
    let out :=
      [ Parameterized_constructor_of_TypedClass name;
        Parameterized_constructor_of_TypedClass name;
        Copy_constructor_of_TypedClass name (print_double (int_to_double z));
        Copy_constructor_of_TypedClass name (print_double d);
        Used_initializer_list_in_DynamicArray (displayName (t_TypedClass t_double)) ] in
    class_template_argument_deduction i = Some (t_TypedClass t_double) /\
    select_constructor (t_TypedClass t_double) i = Some ctor_initializer_list /\
    construct i =
      Some (mk_container (Cell s_double)
              {| arr := [ {| val := int_to_double z |}; {| val := d |} ] |},
            out) /\
    map kind (trace out) = [ValueInit; ValueInit; Copy; Copy] /\
    List.length (trace out) = 4%nat.
Proof.
  intros P z d Hz. cbv zeta.
  assert (D : class_template_argument_deduction
                (braces [plain (int_literal z); plain (double_literal d)]) =
              Some (t_TypedClass t_double)).
  { unfold class_template_argument_deduction.
    rewrite (argument_types_int_and_double z d Hz). reflexivity. }
  assert (C : select_constructor (t_TypedClass t_double)
                (braces [plain (int_literal z); plain (double_literal d)]) =
              Some ctor_initializer_list).
  { unfold select_constructor.
    rewrite (argument_types_int_and_double z d Hz). reflexivity. }
  repeat split; try assumption; try reflexivity.
  unfold construct. rewrite D. cbn [etype_of].
  unfold construct_as. cbn [ctype_of scalar_ctype]. rewrite C.
  reflexivity.
Qed.

Lemma mixed_braced_list_is_a_list_of_cells_witness :
  class_template_argument_deduction
    (braces [plain (int_literal 10); plain (double_literal 1.3)]) =
    Some (t_TypedClass t_double) /\
  select_constructor (t_TypedClass t_double)
    (braces [plain (int_literal 10); plain (double_literal 1.3)]) =
    Some ctor_initializer_list.
Proof.
  assert (Hz : 0 <= 10 <= INT_MAX) by (unfold INT_MAX; lia).
  pose proof (mixed_braced_list_is_a_list_of_cells sample_abi 10 1.3 Hz) as H.
  cbv zeta in H.
  split; [exact (proj1 H) | exact (proj1 (proj2 H))].
Defined.

(** C10. In [DynamicArray arr2{10, 1.3}] the literal [10] is converted to
    [double] and stored: the array is a [DynamicArray<TypedClass<double>>]
    of two cells, the first holding [10.0] and the second [1.3]. It is not
    taken as a count: the same two arguments in parentheses give ten cells
    that all hold [1.3]. *)
Theorem ten_is_stored_as_an_element :
  forall P : Platform,
    int_to_double 10 = 10%float /\
    (exists (c : container) (out : list line),
        construct (braces [plain (int_literal 10); plain (double_literal 1.3)]) =
          Some (c, out) /\
        c = mk_container (Cell s_double)
              {| arr := [ {| val := 10%float |}; {| val := 1.3%float |} ] |} /\
        size c = 2%nat /\
        held_values c = [print_double 10; print_double 1.3]) /\
    (exists (c : container) (out : list line),
        construct (parens [plain (int_literal 10); plain (double_literal 1.3)]) =
          Some (c, out) /\
        size c = 10%nat /\
        held_values c = repeat (print_double 1.3) 10).
Proof.
  intros P. split; [reflexivity|]. split.
  - eexists. eexists. split; [reflexivity|]. repeat split.
  - eexists. eexists. split; [reflexivity|]. repeat split.
Qed.

(** ** Braced lists whose elements have one type *)

Lemma all_some_map_Some {A : Type} (l : list A) : all_some (map Some l) = Some l.
Proof.
  induction l as [|a l IH]; simpl; [reflexivity|]. now rewrite IH.
Qed.

Lemma argument_types_homogeneous (args : list argument) (t : ctype) :
  Forall (fun a => argument_type a = Some t) args ->
  argument_types args = Some (repeat t (List.length args)).
Proof.
  unfold argument_types. induction 1 as [|a args Ha _ IH]; simpl; [reflexivity|].
  rewrite Ha, IH. reflexivity.
Qed.

Lemma forallb_is_same_v_repeat (t : ctype) (n : nat) :
  forallb (is_same_v t) (repeat t n) = true.
Proof.
  induction n as [|n IH]; simpl; [reflexivity|].
  now rewrite is_same_v_refl, IH.
Qed.

Lemma element_conversion_refl (t : ctype) : element_conversion t t = converts false.
Proof.
  unfold element_conversion. now rewrite is_same_v_refl.
Qed.

(** The initializer-list candidate deduces the common type. *)
Lemma deduction_from_homogeneous_list (args : list argument) (t : ctype) :
  args <> [] ->
  Forall (fun a => argument_type a = Some t) args ->
  class_template_argument_deduction (braces args) = Some t.
Proof.
  intros Hne H. unfold class_template_argument_deduction.
  rewrite (argument_types_homogeneous args t H).
  destruct args as [|a args]; [congruence|]. simpl.
  now rewrite forallb_is_same_v_repeat.
Qed.

Lemma initializer_list_constructor_selected (args : list argument) (t : ctype) :
  args <> [] ->
  Forall (fun a => argument_type a = Some t) args ->
  select_constructor t (braces args) = Some ctor_initializer_list.
Proof.
  intros Hne H. unfold select_constructor.
  destruct args as [|a args]; [congruence|].
  rewrite (argument_types_homogeneous (a :: args) t H).
  assert (E : forall n, map (fun a0 => element_conversion a0 t) (repeat t n) =
                        repeat (converts false) n).
  { induction n as [|n IH]; simpl; [reflexivity|].
    now rewrite element_conversion_refl, IH. }
  rewrite E.
  assert (V : forall n, forallb is_viable (repeat (converts false) n) = true)
    by (induction n; simpl; auto).
  assert (N : forall n, existsb is_narrowing (repeat (converts false) n) = false)
    by (induction n; simpl; auto).
  now rewrite V, N.
Qed.

Lemma Forall_plain (s : scalar) (ls : list literal) :
  Forall (fun l => literal_scalar l = Some s) ls ->
  Forall (fun a => argument_type a = Some (scalar_ctype s)) (map plain ls).
Proof.
  induction 1 as [|l ls Hl _ IH]; simpl; constructor; auto.
  simpl. now rewrite Hl.
Qed.

Lemma Forall_TypedClass_braced (s : scalar) (ls : list literal) :
  Forall (fun l => literal_scalar l = Some s) ls ->
  Forall (fun a => argument_type a = Some (t_TypedClass (scalar_ctype s)))
         (map TypedClass_braced ls).
Proof.
  induction 1 as [|l ls Hl _ IH]; simpl; constructor; auto.
  simpl. now rewrite Hl.
Qed.

Lemma values_of_literals (s : scalar) (ls : list literal) :
  Forall (fun l => literal_scalar l = Some s) ls ->
  exists vs : list (carrier s),
    map (fun l => convert_literal l s) ls = map Some vs.
Proof.
  induction 1 as [|l ls Hl _ [vs IH]].
  - now exists [].
  - destruct (convert_literal_same l s Hl) as [x Hx].
    exists (x :: vs). simpl. now rewrite Hx, IH.
Qed.

Lemma map_Some_length {A : Type} (xs : list (option A)) (vs : list A) :
  xs = map Some vs -> List.length vs = List.length xs.
Proof.
  intros ->. now rewrite length_map.
Qed.

Lemma scalar_eqb_refl (s : scalar) : scalar_eqb s s = true.
Proof.
  destruct s; reflexivity.
Qed.

Section braced_lists.
Context {P : Platform}.

Lemma initialize_plain_elements (s : scalar) (ls : list literal) (vs : list (carrier s)) :
  map (fun l => convert_literal l s) ls = map Some vs ->
  all_some (map (initialize_from (Plain s)) (map plain ls)) =
    Some (map (fun x => ret x) vs).
Proof.
  intros H. rewrite map_map. cbn [initialize_from].
  rewrite <- (map_map (fun l => convert_literal l s) (option_map (fun x => ret x))).
  rewrite H, map_map. cbn [option_map].
  rewrite <- (map_map (fun x => ret x) Some). apply all_some_map_Some.
Qed.

Lemma initialize_cell_element (s : scalar) (l : literal) (x : carrier s) :
  literal_scalar l = Some s ->
  convert_literal l s = Some x ->
  initialize_from (Cell s) (TypedClass_braced l) =
    Some (@TypedClass_from_value P (carrier s) (carrier_Scalar s) x).
Proof.
  intros Hl Hx. cbn [initialize_from].
  now rewrite Hl, scalar_eqb_refl, Hx.
Qed.

Lemma initialize_cell_elements (s : scalar) (ls : list literal) (vs : list (carrier s)) :
  Forall (fun l => literal_scalar l = Some s) ls ->
  map (fun l => convert_literal l s) ls = map Some vs ->
  all_some (map (initialize_from (Cell s)) (map TypedClass_braced ls)) =
    Some (map (@TypedClass_from_value P (carrier s) (carrier_Scalar s)) vs).
Proof.
  intros HF. revert vs.
  induction HF as [|l ls Hl _ IH]; intros vs H.
  - destruct vs; [reflexivity|discriminate].
  - destruct vs as [|x vs]; [discriminate|]. simpl in H.
    injection H as Hx Hrest. cbn [map].
    rewrite (initialize_cell_element s l x Hl Hx). cbn [all_some].
    now rewrite (IH vs Hrest).
Qed.

(** The equation behind [DynamicArray x{v1, ..., vk}] for scalars. *)
Lemma construct_braced_scalars (s : scalar) (ls : list literal) (vs : list (carrier s)) :
  ls <> [] ->
  Forall (fun l => literal_scalar l = Some s) ls ->
  map (fun l => convert_literal l s) ls = map Some vs ->
  construct (braces (map plain ls)) =
    Some (mk_container (Plain s) {| arr := vs |},
          [Used_initializer_list_in_DynamicArray (displayName (scalar_ctype s))]).
Proof.
  intros Hne HF Hvs.
  assert (Hne' : map plain ls <> []) by (destruct ls; [congruence|discriminate]).
  unfold construct.
  rewrite (deduction_from_homogeneous_list _ _ Hne' (Forall_plain s ls HF)).
  rewrite etype_of_Plain. unfold construct_as. cbn [ctype_of].
  rewrite (initializer_list_constructor_selected _ _ Hne' (Forall_plain s ls HF)).
  cbn [arguments_of run_constructor].
  rewrite (initialize_plain_elements s ls vs Hvs). cbn [option_map].
  unfold DynamicArray_initializer_list.
  destruct s; cbn [eobj eobj_Element carrier carrier_Scalar] in *;
    rewrite sequence_ret; unfold bind; cbn [ret cout];
    rewrite vector_from_list_scalar; reflexivity.
Qed.

(** The equation behind [DynamicArray x{TypedClass{v1}, ..., TypedClass{vk}}]. *)
Lemma construct_braced_cells (s : scalar) (ls : list literal) (vs : list (carrier s)) :
  ls <> [] ->
  Forall (fun l => literal_scalar l = Some s) ls ->
  map (fun l => convert_literal l s) ls = map Some vs ->
  construct (braces (map TypedClass_braced ls)) =
    Some (mk_container (Cell s) {| arr := map mk_TypedClass vs |},
          map (fun _ => Parameterized_constructor_of_TypedClass
                          (displayName (scalar_ctype s))) vs
          ++ map (fun x => Copy_constructor_of_TypedClass
                             (displayName (scalar_ctype s))
                             (@shown _ (carrier_Scalar s) x)) vs
          ++ [Used_initializer_list_in_DynamicArray
                (displayName (t_TypedClass (scalar_ctype s)))]).
Proof.
  intros Hne HF Hvs.
  assert (Hne' : map TypedClass_braced ls <> [])
    by (destruct ls; [congruence|discriminate]).
  unfold construct.
  rewrite (deduction_from_homogeneous_list _ _ Hne' (Forall_TypedClass_braced s ls HF)).
  rewrite etype_of_Cell. unfold construct_as. cbn [ctype_of].
  rewrite (initializer_list_constructor_selected _ _ Hne'
             (Forall_TypedClass_braced s ls HF)).
  cbn [arguments_of run_constructor].
  rewrite (initialize_cell_elements s ls vs HF Hvs). cbn [option_map].
  unfold DynamicArray_initializer_list.
  destruct s; cbn [eobj eobj_Element carrier carrier_Scalar] in *;
    rewrite sequence_from_value; unfold bind; cbn [ret cout];
    rewrite vector_from_list_TypedClass; cbn [element_type TypedClass_Element];
    rewrite map_map, !app_nil_r; reflexivity.
Qed.

End braced_lists.

(** C5. The initializer-list constructor, given [k] scalars of type [T],
    builds a [DynamicArray<T>] holding exactly these [k] values and writes
    one line, which is not a construction event: the trace stays empty. A
    declaration [DynamicArray x{v1, ..., vk}] whose [k >= 1] literals all
    have the scalar type [T] deduces [DynamicArray<T>], the scalars' own
    type and not a [TypedClass], and runs that constructor on the values of
    the literals. *)
Theorem braced_list_of_scalars :
  forall P : Platform,
    (forall (T : Type) (S : Scalar T) (vs : list T),
        let d := DynamicArray_initializer_list vs in
        getArr (result d) = vs /\
        List.length (getArr (result d)) = List.length vs /\
        output d = [Used_initializer_list_in_DynamicArray (displayName scalar_type)] /\
        trace (output d) = []) /\
    (forall (s : scalar) (ls : list literal),
        ls <> [] ->
        Forall (fun l => literal_scalar l = Some s) ls ->
        class_template_argument_deduction (braces (map plain ls)) =
          Some (scalar_ctype s) /\
        exists (vs : list (carrier s)) (out : list line),
          map (fun l => convert_literal l s) ls = map Some vs /\
          construct (braces (map plain ls)) =
            Some (mk_container (Plain s) {| arr := vs |}, out) /\
          List.length vs = List.length ls /\
          trace out = []).
Proof.
  intros P. split.
  - intros T S vs d. subst d. unfold DynamicArray_initializer_list.
    rewrite vector_from_list_scalar. cbn. repeat split.
  - intros s ls Hne HF. split.
    + apply deduction_from_homogeneous_list; [|now apply Forall_plain].
      destruct ls; [congruence|discriminate].
    + destruct (values_of_literals s ls HF) as [vs Hvs].
      exists vs. eexists. split; [exact Hvs|]. split; [|split].
      * exact (construct_braced_scalars s ls vs Hne HF Hvs).
      * rewrite (map_Some_length _ _ Hvs). apply length_map.
      * reflexivity.
Qed.

Lemma braced_list_of_scalars_witness :
  exists (vs : list (carrier s_double)) (out : list line),
    @construct sample_abi
      (braces [plain (double_literal 10.0); plain (double_literal 1.3)]) =
      Some (mk_container (Plain s_double) {| arr := vs |}, out) /\
    List.length vs = 2%nat /\
    trace out = [].
Proof.
  destruct (proj2 (braced_list_of_scalars sample_abi) s_double
              [double_literal 10.0; double_literal 1.3])
    as [_ [vs [out [_ [Hc [Hl Ht]]]]]].
  - discriminate.
  - repeat constructor.
  - exists vs, out. repeat split; assumption.
Defined.

(** C6. The initializer-list constructor, given [k] cells [c1, ..., ck] of
    type [TypedClass<T>], builds a [DynamicArray<TypedClass<T>>] of [k] cells
    whose i-th holds [ci.getData()]. A declaration
    [DynamicArray x{TypedClass{v1}, ..., TypedClass{vk}}], [k >= 1], deduces
    the element type [TypedClass<T>], the cells' own type and not a
    [TypedClass] of it, and its cells hold [v1, ..., vk]. *)
Theorem braced_list_of_cells :
  forall P : Platform,
    (forall (T : Type) (S : Scalar T) (cells : list (TypedClass T)),
        let d := DynamicArray_initializer_list cells in
        List.length (getArr (result d)) = List.length cells /\
        map getData (getArr (result d)) = map getData cells /\
        @element_type (TypedClass T) TypedClass_Element = t_TypedClass scalar_type) /\
    (forall (s : scalar) (ls : list literal),
        ls <> [] ->
        Forall (fun l => literal_scalar l = Some s) ls ->
        class_template_argument_deduction (braces (map TypedClass_braced ls)) =
          Some (t_TypedClass (scalar_ctype s)) /\
        exists (vs : list (carrier s)) (d : DynamicArray (TypedClass (carrier s)))
               (out : list line),
          map (fun l => convert_literal l s) ls = map Some vs /\
          construct (braces (map TypedClass_braced ls)) =
            Some (mk_container (Cell s) d, out) /\
          List.length (getArr d) = List.length ls /\
          map (@getData (carrier s)) (getArr d) = vs).
Proof.
  intros P. split.
  - intros T S cells d. subst d. unfold DynamicArray_initializer_list.
    rewrite vector_from_list_TypedClass. cbn. repeat split.
  - intros s ls Hne HF. split.
    + apply deduction_from_homogeneous_list; [|now apply Forall_TypedClass_braced].
      destruct ls; [congruence|discriminate].
    + destruct (values_of_literals s ls HF) as [vs Hvs].
      exists vs. eexists. eexists. split; [exact Hvs|]. split; [|split].
      * exact (construct_braced_cells s ls vs Hne HF Hvs).
      * cbn. rewrite length_map, (map_Some_length _ _ Hvs). apply length_map.
      * cbn. rewrite map_map. cbn. apply map_id.
Qed.

Lemma braced_list_of_cells_witness :
  exists (d : DynamicArray (TypedClass float)) (out : list line),
    @construct sample_abi
      (braces [TypedClass_braced (double_literal 10.34);
               TypedClass_braced (double_literal 9.23);
               TypedClass_braced (double_literal 3.14)]) =
      Some (mk_container (Cell s_double) d, out) /\
    List.length (getArr d) = 3%nat.
Proof.
  destruct (proj2 (braced_list_of_cells sample_abi) s_double
              [double_literal 10.34; double_literal 9.23; double_literal 3.14])
    as [_ [vs [d [out [_ [Hc [Hl _]]]]]]].
  - discriminate.
  - repeat constructor.
  - exists d, out. split; assumption.
Defined.

(** ** The trace against the elements *)





(** * Further properties of CTAD.cpp and typeChecks.cpp *)

(** ** What deduction makes of a declaration *)

Lemma all_some_Forall2 {A B : Type} (f : A -> option B) (l : list A) (ts : list B) :
  all_some (map f l) = Some ts -> Forall2 (fun a t => f a = Some t) l ts.
Proof.
  revert ts. induction l as [|a l IH]; intros ts H; simpl in H.
  - injection H as <-. constructor.
  - destruct (f a) as [t|] eqn:Ha; [|discriminate].
    destruct (all_some (map f l)) as [ts'|]; [|discriminate].
    injection H as <-. constructor; auto.
Qed.

Lemma Forall2_all_some {A B : Type} (f : A -> option B) (l : list A) (ts : list B) :
  Forall2 (fun a t => f a = Some t) l ts -> all_some (map f l) = Some ts.
Proof.
  induction 1 as [|a t l ts Ha _ IH]; simpl; [reflexivity|].
  now rewrite Ha, IH.
Qed.

Lemma deduce_from_list_Some (ts : list ctype) (E : ctype) :
  deduce_from_list ts = Some E <-> ts <> [] /\ Forall (eq E) ts.
Proof.
  destruct ts as [|t ts]; simpl.
  - split; [discriminate | intros [H _]; congruence].
  - destruct (forallb (is_same_v t) ts) eqn:F.
    + rewrite forallb_forall in F. split.
      * intros H. injection H as <-. split; [discriminate|].
        constructor; [reflexivity|]. apply Forall_forall.
        intros u Hu. apply is_same_v_eq. now apply F.
      * intros [_ H]. inversion H; subst. reflexivity.
    + split; [discriminate|]. intros [_ H]. inversion H as [|? ? ? Hts]; subst.
      exfalso. assert (forallb (is_same_v t) ts = true); [|congruence].
      apply forallb_forall. intros u Hu. rewrite Forall_forall in Hts.
      rewrite <- (Hts u Hu). apply is_same_v_refl.
Qed.

(** Only two candidates ever deduce, and only from two arguments the first
    of which converts to [size_t]. *)
Lemma candidates_cases (ts : list ctype) :
  candidates ts =
    match ts with
    | [a; b] =>
        if is_viable (to_size_t_conversion a)
        then [(guide_of_fill_ctor, b); (guide_line_78, t_TypedClass b)]
        else []
    | _ => []
    end.
Proof.
  destruct ts as [|a [|b [|c r]]]; try reflexivity.
  unfold candidates. cbn. destruct (is_viable (to_size_t_conversion a)); reflexivity.
Qed.

Lemma best_candidate_cases (ts : list ctype) :
  best_candidate (candidates ts) =
    match ts with
    | [a; b] =>
        if is_viable (to_size_t_conversion a)
        then Some (guide_line_78, t_TypedClass b)
        else None
    | _ => None
    end.
Proof.
  rewrite candidates_cases.
  destruct ts as [|a [|b [|c r]]]; try reflexivity.
  destruct (is_viable (to_size_t_conversion a)); reflexivity.
Qed.

Lemma is_viable_to_size_t (a : ctype) :
  is_viable (to_size_t_conversion a) = true <-> a = t_int \/ a = t_double.
Proof.
  destruct a; simpl; split; intros H; try discriminate; auto;
    destruct H; discriminate.
Qed.

Lemma deduction_parens_iff :
  forall (args : list argument) (E : ctype),
    class_template_argument_deduction (parens args) = Some E <->
    exists (a b : argument) (T : ctype),
      args = [a; b] /\
      (argument_type a = Some t_int \/ argument_type a = Some t_double) /\
      argument_type b = Some T /\
      E = t_TypedClass T.
Proof.
  intros args E. unfold class_template_argument_deduction. split.
  - destruct (argument_types args) as [ts|] eqn:Hts; [|discriminate].
    rewrite best_candidate_cases. intros H.
    apply all_some_Forall2 in Hts.
    destruct ts as [|ta [|tb [|tc r]]]; try discriminate.
    destruct (is_viable (to_size_t_conversion ta)) eqn:V; [|discriminate].
    injection H as <-.
    inversion Hts as [|a ? l1 ? Ha H1]; subst.
    inversion H1 as [|b ? l2 ? Hb H2]; subst.
    inversion H2; subst.
    exists a, b, tb. repeat split; auto.
    apply is_viable_to_size_t in V. destruct V; subst; auto.
  - intros (a & b & T & -> & Ha & Hb & ->).
    unfold argument_types. cbn [map all_some].
    destruct Ha as [Ha|Ha]; rewrite Ha, Hb; reflexivity.
Qed.

(** X1. In a declaration with parentheses and no template arguments, the
    candidate of the fill constructor never wins: deduction succeeds exactly
    for two arguments whose first is an [int] or a [double], and the element
    type is then always [TypedClass<T>] for the type [T] of the second, never
    [T] itself. *)
Theorem parentheses_always_deduce_a_TypedClass :
  forall (args : list argument) (E : ctype),
    class_template_argument_deduction (parens args) = Some E <->
    exists (a b : argument) (T : ctype),
      args = [a; b] /\
      (argument_type a = Some t_int \/ argument_type a = Some t_double) /\
      argument_type b = Some T /\
      E = t_TypedClass T.
Proof.
  exact deduction_parens_iff.
Qed.

Lemma Forall2_Forall_eq {A B : Type} (f : A -> option B) (l : list A) (ts : list B) (E : B) :
  Forall2 (fun a t => f a = Some t) l ts ->
  Forall (eq E) ts ->
  Forall (fun a => f a = Some E) l.
Proof.
  induction 1 as [|a t l ts Ha _ IH]; intros HE; constructor;
    inversion HE; subst; auto.
Qed.

Lemma deduction_braces_iff :
  forall (args : list argument) (E : ctype),
    class_template_argument_deduction (braces args) = Some E <->
    (args <> [] /\ Forall (fun a => argument_type a = Some E) args) \/
    (exists (a b : argument) (T : ctype),
        args = [a; b] /\
        argument_type a = Some t_int /\
        argument_type b = Some T /\
        T <> t_int /\
        E = t_TypedClass T).
Proof.
  intros args E. split.
  - unfold class_template_argument_deduction.
    destruct (argument_types args) as [ts|] eqn:Hts; [|discriminate].
    apply all_some_Forall2 in Hts.
    destruct (deduce_from_list ts) as [E'|] eqn:D.
    + intros H. injection H as ->. apply deduce_from_list_Some in D.
      destruct D as [Hne HE]. left. split.
      * intros ->. inversion Hts. congruence.
      * exact (Forall2_Forall_eq _ _ _ _ Hts HE).
    + rewrite best_candidate_cases.
      destruct ts as [|ta [|tb [|tc r]]]; try discriminate.
      destruct (is_viable (to_size_t_conversion ta)) eqn:V; [|discriminate].
      apply is_viable_to_size_t in V. destruct V; subst ta; [|discriminate].
      cbn. intros H. injection H as <-.
      inversion Hts as [|a ? l1 ? Ha H1]; subst.
      inversion H1 as [|b ? l2 ? Hb H2]; subst.
      inversion H2; subst.
      right. exists a, b, tb. repeat split; auto.
      intros ->. discriminate D.
  - intros [[Hne HF] | (a & b & T & -> & Ha & Hb & HT & ->)].
    + now apply deduction_from_homogeneous_list.
    + unfold class_template_argument_deduction, argument_types.
      cbn [map all_some]. rewrite Ha, Hb. cbn [option_map deduce_from_list forallb].
      apply is_same_v_neq in HT.
      assert (HT' : is_same_v t_int T = false).
      { apply is_same_v_neq. apply is_same_v_neq in HT. congruence. }
      rewrite HT'. reflexivity.
Qed.

(** X2. In a declaration with braces and no template arguments, deduction
    succeeds in exactly two ways. Either the list is not empty and all its
    elements have one type [E], which becomes the element type as it is
    (a list of [TypedClass<T>] gives [TypedClass<T>], not a wrapper around
    it); or the list is [{a, b}] with [a] an [int] and [b] of another type
    [T], and the guide of line 78 gives [TypedClass<T>]. Anything else, such
    as [{}], a list starting with a [double] followed by another type, or
    three elements of mixed types, deduces nothing. *)
Theorem braces_deduce_the_common_type_or_wrap :
  forall (args : list argument) (E : ctype),
    class_template_argument_deduction (braces args) = Some E <->
    (args <> [] /\ Forall (fun a => argument_type a = Some E) args) \/
    (exists (a b : argument) (T : ctype),
        args = [a; b] /\
        argument_type a = Some t_int /\
        argument_type b = Some T /\
        T <> t_int /\
        E = t_TypedClass T).
Proof.
  exact deduction_braces_iff.
Qed.

(** ** The declarations that construct *)

Lemma argument_type_cases (a : argument) (E : ctype) :
  argument_type a = Some E ->
  (exists l s, a = plain l /\ literal_scalar l = Some s /\ E = scalar_ctype s) \/
  (exists l s, a = TypedClass_braced l /\ literal_scalar l = Some s /\
               E = t_TypedClass (scalar_ctype s)).
Proof.
  destruct a as [l|l]; simpl; destruct (literal_scalar l) as [s|] eqn:Hl; simpl;
    intros H; try discriminate; injection H as <-.
  - left. exists l, s. auto.
  - right. exists l, s. auto.
Qed.

Lemma scalar_ctype_inj (s s' : scalar) : scalar_ctype s = scalar_ctype s' -> s = s'.
Proof.
  destruct s, s'; simpl; congruence.
Qed.

Lemma homogeneous_scalars (args : list argument) (s : scalar) :
  Forall (fun a => argument_type a = Some (scalar_ctype s)) args ->
  exists ls, args = map plain ls /\ Forall (fun l => literal_scalar l = Some s) ls.
Proof.
  induction 1 as [|a args Ha _ [ls [-> HF]]].
  - exists []. split; [reflexivity|constructor].
  - destruct (argument_type_cases a _ Ha) as [(l & s' & -> & Hl & E)|(l & s' & _ & _ & E)].
    + apply scalar_ctype_inj in E. subst s'.
      exists (l :: ls). split; [reflexivity|]. now constructor.
    + destruct s, s'; discriminate.
Qed.

Lemma homogeneous_cells (args : list argument) (s : scalar) :
  Forall (fun a => argument_type a = Some (t_TypedClass (scalar_ctype s))) args ->
  exists ls, args = map TypedClass_braced ls /\
             Forall (fun l => literal_scalar l = Some s) ls.
Proof.
  induction 1 as [|a args Ha _ [ls [-> HF]]].
  - exists []. split; [reflexivity|constructor].
  - destruct (argument_type_cases a _ Ha) as [(l & s' & _ & _ & E)|(l & s' & -> & Hl & E)].
    + destruct s, s'; discriminate.
    + injection E as E. apply scalar_ctype_inj in E. subst s'.
      exists (l :: ls). split; [reflexivity|]. now constructor.
Qed.

Lemma int_literal_scalar (l : literal) :
  literal_scalar l = Some s_int -> exists z, l = int_literal z /\ 0 <= z <= INT_MAX.
Proof.
  destruct l as [z|d]; simpl; [|discriminate].
  destruct (0 <=? z) eqn:H0; destruct (z <=? INT_MAX) eqn:H1; simpl;
    try discriminate.
  intros _. exists z. apply Z.leb_le in H0, H1. auto.
Qed.

Lemma double_literal_scalar (l : literal) :
  literal_scalar l = Some s_double -> exists d, l = double_literal d.
Proof.
  destruct l as [z|d]; simpl; [|eauto].
  destruct ((0 <=? z) && (z <=? INT_MAX)); discriminate.
Qed.

(** The equation behind [DynamicArray x{z, d}]. *)
Lemma construct_int_and_double (P : Platform) (z : Z) (d : float) :
  0 <= z <= INT_MAX ->
  construct (braces [plain (int_literal z); plain (double_literal d)]) =
    Some (mk_container (Cell s_double)
            {| arr := [ {| val := int_to_double z |}; {| val := d |} ] |},
          [ Parameterized_constructor_of_TypedClass (displayName t_double);
            Parameterized_constructor_of_TypedClass (displayName t_double);
            Copy_constructor_of_TypedClass (displayName t_double)
              (print_double (int_to_double z));
            Copy_constructor_of_TypedClass (displayName t_double) (print_double d);
            Used_initializer_list_in_DynamicArray
              (displayName (t_TypedClass t_double)) ]).
Proof.
  intros Hz. unfold construct, class_template_argument_deduction.
  rewrite (argument_types_int_and_double z d Hz). cbn [deduce_from_list forallb
    is_same_v andb]. rewrite best_candidate_cases.
  cbn [to_size_t_conversion is_viable is_narrowing etype_of].
  unfold construct_as, select_constructor. cbn [ctype_of scalar_ctype].
  rewrite (argument_types_int_and_double z d Hz). reflexivity.
Qed.

Lemma etype_of_TypedClass_inv (T : ctype) (e : etype) :
  etype_of (t_TypedClass T) = Some e -> exists s, T = scalar_ctype s /\ e = Cell s.
Proof.
  destruct T; simpl; intros H; try discriminate; injection H as <-;
    [exists s_int | exists s_double]; auto.
Qed.

Lemma plain_of_scalar_type (a : argument) (s : scalar) :
  argument_type a = Some (scalar_ctype s) ->
  exists l, a = plain l /\ literal_scalar l = Some s.
Proof.
  intros H. destruct (argument_type_cases a _ H) as [(l & s' & -> & Hl & E)|(l & s' & _ & _ & E)].
  - apply scalar_ctype_inj in E. subst. eauto.
  - destruct s, s'; discriminate.
Qed.

(** The equation behind [DynamicArray x(d, v)] with a [double] for count. *)
Lemma construct_double_count_and_value
  (P : Platform) (s : scalar) (d : float) (n : N) (v : literal) (x : carrier s) :
  double_to_size_t d = Some n ->
  literal_scalar v = Some s ->
  convert_literal v s = Some x ->
  construct (parens [plain (double_literal d); plain v]) =
    Some (mk_container (Cell s) {| arr := repeat {| val := x |} (N.to_nat n) |},
          Parameterized_constructor_of_TypedClass (displayName (scalar_ctype s))
          :: repeat (Copy_constructor_of_TypedClass (displayName (scalar_ctype s))
                       (@shown _ (carrier_Scalar s) x))
                    (N.to_nat n)).
Proof.
  intros Hd Hv Hx.
  assert (T : argument_types [plain (double_literal d); plain v] =
              Some [t_double; scalar_ctype s]).
  { unfold argument_types. cbn [map argument_type literal_scalar option_map all_some].
    now rewrite Hv. }
  unfold construct, class_template_argument_deduction. rewrite T.
  rewrite best_candidate_cases.
  cbn [to_size_t_conversion is_viable option_map snd]. rewrite etype_of_Cell.
  unfold construct_as, select_constructor. rewrite T.
  assert (C : select_by_arguments false (ctype_of (Cell s)) [t_double; scalar_ctype s] =
              Some ctor_fill) by (destruct s; reflexivity).
  rewrite C. cbn [arguments_of run_constructor count_of]. rewrite Hd.
  cbn [initialize_from]. rewrite Hx. cbn [option_map]. unfold DynamicArray_fill.
  destruct s; cbn [eobj eobj_Element carrier carrier_Scalar] in *;
    unfold TypedClass_from_value, bind; cbn [cout ret];
    rewrite vector_fill_TypedClass; cbn; rewrite !app_nil_r; reflexivity.
Qed.

Section accepted_declarations.
Context {P : Platform}.

Lemma construct_accepts_only (i : initializer) (r : Out line container) :
  construct i = Some r -> accepted i.
Proof.
  unfold construct. intros H.
  destruct (class_template_argument_deduction i) as [E|] eqn:D; [|discriminate].
  destruct (etype_of E) as [e|] eqn:He; [|discriminate].
  destruct (construct_as e i) as [m|] eqn:C; [|discriminate]. clear H.
  destruct i as [|args|args]; [discriminate| |].
  - apply deduction_parens_iff in D.
    destruct D as (a & b & T & -> & Ha & Hb & ->).
    apply etype_of_TypedClass_inv in He. destruct He as (s & -> & ->).
    apply plain_of_scalar_type in Hb. destruct Hb as (v & -> & Hv).
    destruct Ha as [Ha|Ha].
    + apply (plain_of_scalar_type a s_int) in Ha. destruct Ha as (l & -> & Hl).
      apply int_literal_scalar in Hl. destruct Hl as (z & -> & Hz).
      now apply (accepted_count_and_value s z v).
    + apply (plain_of_scalar_type a s_double) in Ha. destruct Ha as (l & -> & Hl).
      apply double_literal_scalar in Hl. destruct Hl as (d & ->).
      destruct (double_to_size_t d) as [n|] eqn:Hd.
      * now apply (accepted_double_count_and_value s d n v).
      * exfalso. unfold construct_as, select_constructor, argument_types in C.
        cbn [map argument_type literal_scalar option_map all_some] in C.
        rewrite Hv in C. cbn [option_map all_some scalar_ctype] in C.
        assert (S : select_by_arguments false (ctype_of (Cell s))
                      [t_double; scalar_ctype s] = Some ctor_fill)
          by (destruct s; reflexivity).
        rewrite S in C.
        cbn [arguments_of run_constructor count_of] in C. rewrite Hd in C.
        discriminate C.
  - apply deduction_braces_iff in D.
    destruct D as [[Hne HF] | (a & b & T & -> & Ha & Hb & HT & ->)].
    + destruct args as [|a0 args0]; [congruence|].
      assert (Ha0 : argument_type a0 = Some E) by (inversion HF; assumption).
      destruct (argument_type_cases a0 E Ha0) as [(l & s & _ & _ & ->)|(l & s & _ & _ & ->)].
      * destruct (homogeneous_scalars _ s HF) as (ls & Heq & HFl).
        rewrite Heq. apply (accepted_scalars s ls); [|assumption].
        intros ->. discriminate Heq.
      * destruct (homogeneous_cells _ s HF) as (ls & Heq & HFl).
        rewrite Heq. apply (accepted_cells s ls); [|assumption].
        intros ->. discriminate Heq.
    + apply etype_of_TypedClass_inv in He. destruct He as (s & -> & ->).
      destruct s; [exfalso; apply HT; reflexivity|].
      apply (plain_of_scalar_type a s_int) in Ha. destruct Ha as (l & -> & Hl).
      apply int_literal_scalar in Hl. destruct Hl as (z & -> & Hz).
      apply (plain_of_scalar_type b s_double) in Hb. destruct Hb as (l & -> & Hl).
      apply double_literal_scalar in Hl. destruct Hl as (d & ->).
      now apply accepted_int_and_double.
Qed.

End accepted_declarations.

Section outcomes.
Context {P : Platform}.

(** What each accepted declaration builds and writes. *)
Lemma construct_outcome (i : initializer) (c : container) (out : list line) :
  construct i = Some (c, out) ->
  (exists (s : scalar) (a v : literal) (n : N) (x : carrier s),
      i = parens [plain a; plain v] /\
      count_of (plain a) = Some n /\
      convert_literal v s = Some x /\
      c = mk_container (Cell s) {| arr := repeat {| val := x |} (N.to_nat n) |} /\
      out = Parameterized_constructor_of_TypedClass (displayName (scalar_ctype s))
            :: repeat (Copy_constructor_of_TypedClass (displayName (scalar_ctype s))
                         (@shown _ (carrier_Scalar s) x)) (N.to_nat n)) \/
  (exists (s : scalar) (ls : list literal) (vs : list (carrier s)),
      i = braces (map plain ls) /\
      map (fun l => convert_literal l s) ls = map Some vs /\
      c = mk_container (Plain s) {| arr := vs |} /\
      out = [Used_initializer_list_in_DynamicArray (displayName (scalar_ctype s))]) \/
  (exists (s : scalar) (ls : list literal) (vs : list (carrier s)),
      i = braces (map TypedClass_braced ls) /\
      map (fun l => convert_literal l s) ls = map Some vs /\
      c = mk_container (Cell s) {| arr := map mk_TypedClass vs |} /\
      out = map (fun _ => Parameterized_constructor_of_TypedClass
                            (displayName (scalar_ctype s))) vs
            ++ map (fun x => Copy_constructor_of_TypedClass
                               (displayName (scalar_ctype s))
                               (@shown _ (carrier_Scalar s) x)) vs
            ++ [Used_initializer_list_in_DynamicArray
                  (displayName (t_TypedClass (scalar_ctype s)))]) \/
  (exists (z : Z) (d : float),
      i = braces [plain (int_literal z); plain (double_literal d)] /\
      0 <= z <= INT_MAX /\
      c = mk_container (Cell s_double)
            {| arr := [ {| val := int_to_double z |}; {| val := d |} ] |} /\
      out = [ Parameterized_constructor_of_TypedClass (displayName t_double);
              Parameterized_constructor_of_TypedClass (displayName t_double);
              Copy_constructor_of_TypedClass (displayName t_double)
                (print_double (int_to_double z));
              Copy_constructor_of_TypedClass (displayName t_double) (print_double d);
              Used_initializer_list_in_DynamicArray
                (displayName (t_TypedClass t_double)) ]).
Proof.
  intros H. pose proof (construct_accepts_only i _ H) as A.
  destruct A as [s z v Hz Hv | s d n v Hd Hv | s ls Hne HF | s ls Hne HF | z d Hz].
  - destruct (convert_literal_same v s Hv) as [x Hx].
    rewrite (construct_count_and_value P s z v x Hz Hv Hx) in H.
    injection H as <- <-. left. exists s, (int_literal z), v, (Z.to_N z), x.
    rewrite Z_N_nat. repeat split; auto. exact (count_of_int z Hz).
  - destruct (convert_literal_same v s Hv) as [x Hx].
    rewrite (construct_double_count_and_value P s d n v x Hd Hv Hx) in H.
    injection H as <- <-. left. exists s, (double_literal d), v, n, x.
    repeat split; auto.
  - destruct (values_of_literals s ls HF) as [vs Hvs].
    rewrite (construct_braced_scalars s ls vs Hne HF Hvs) in H.
    injection H as <- <-. right. left. exists s, ls, vs. auto.
  - destruct (values_of_literals s ls HF) as [vs Hvs].
    rewrite (construct_braced_cells s ls vs Hne HF Hvs) in H.
    injection H as <- <-. right. right. left. exists s, ls, vs. auto.
  - rewrite (construct_int_and_double P z d Hz) in H.
    injection H as <- <-. right. right. right. exists z, d. auto.
Qed.

End outcomes.

Lemma trace_value_constructions {A : Type} (name : option string) (vs : list A) :
  trace (map (fun _ => Parameterized_constructor_of_TypedClass name) vs) =
    map (fun _ => mk_event ValueInit name None) vs.
Proof.
  induction vs as [|v vs IH]; simpl; [reflexivity|]. now rewrite IH.
Qed.

Lemma trace_copy_constructions {A : Type} (name : option string) (f : A -> printed)
  (vs : list A) :
  trace (map (fun x => Copy_constructor_of_TypedClass name (f x)) vs) =
    map (fun x => mk_event Copy name (Some (f x))) vs.
Proof.
  induction vs as [|v vs IH]; simpl; [reflexivity|]. now rewrite IH.
Qed.

Lemma events_of_kind_app (k : event_kind) (t1 t2 : list ConstructionEvent) :
  events_of_kind k (t1 ++ t2) = events_of_kind k t1 ++ events_of_kind k t2.
Proof.
  apply filter_app.
Qed.

Lemma events_of_kind_map_same {A : Type} (k : event_kind) (f : A -> ConstructionEvent)
  (vs : list A) :
  (forall x, kind (f x) = k) -> events_of_kind k (map f vs) = map f vs.
Proof.
  intros Hk. induction vs as [|v vs IH]; simpl; [reflexivity|].
  unfold events_of_kind in *. simpl. rewrite (Hk v).
  destruct k; simpl; now rewrite IH.
Qed.

Lemma events_of_kind_map_other {A : Type} (k : event_kind) (f : A -> ConstructionEvent)
  (vs : list A) :
  (forall x, kind_eqb (kind (f x)) k = false) -> events_of_kind k (map f vs) = [].
Proof.
  intros Hk. induction vs as [|v vs IH]; simpl; [reflexivity|].
  unfold events_of_kind in *. simpl. now rewrite (Hk v).
Qed.

(** ** Sizes *)

(** X3. Take a declaration with braces and no template arguments whose
    arguments are [int] or [double] literals or [TypedClass{literal}]
    temporaries. Whenever it constructs, the container has exactly as many
    elements as the braced list: an [int] in front is never taken as a
    count, because it converts to the cell type and the initializer-list
    constructor is tried first. (A list such as [{5, "hello"}], whose
    [int] does not convert to the cell type, is not of this form: there the
    fill constructor runs.) *)
Theorem a_braced_list_is_never_a_count :
  forall (P : Platform) (args : list argument) (c : container) (out : list line),
    construct (braces args) = Some (c, out) ->
    size c = List.length args.
Proof.
  intros P args c out H.
  destruct (construct_outcome _ _ _ H)
    as [(s & a & v & n & x & E & _) | [(s & ls & vs & E & Hvs & -> & _)
       | [(s & ls & vs & E & Hvs & -> & _) | (z & d & E & _ & -> & _)]]];
    try discriminate E; injection E as ->.
  - unfold size. cbn. rewrite length_map.
    rewrite (map_Some_length _ _ Hvs). apply length_map.
  - unfold size. cbn. rewrite !length_map.
    rewrite (map_Some_length _ _ Hvs). apply length_map.
  - reflexivity.
Qed.

Lemma a_braced_list_is_never_a_count_witness :
  size (mk_container (Cell s_double)
          {| arr := [ {| val := 10%float |}; {| val := 1.3%float |} ] |}) =
    List.length [plain (int_literal 10); plain (double_literal 1.3)].
Proof.
  eapply (a_braced_list_is_never_a_count sample_abi
            [plain (int_literal 10); plain (double_literal 1.3)]).
  reflexivity.
Defined.

(** X4. Take a declaration with parentheses and no template arguments whose
    arguments are [int] or [double] literals or [TypedClass{literal}]
    temporaries. Whenever it constructs, it is [DynamicArray x(a, v)] with
    two scalar literals; the container is then always one of [TypedClass]
    cells, never of plain scalars; it has as many elements as [a] converted
    to [size_t] says ([a] may be an [int] or a [double], which is truncated);
    and all of them hold the value of [v]. *)
Theorem parentheses_give_count_copies_in_cells :
  forall (P : Platform) (args : list argument) (c : container) (out : list line),
    construct (parens args) = Some (c, out) ->
    exists (s : scalar) (a v : literal) (n : N) (x : carrier s),
      args = [plain a; plain v] /\
      count_of (plain a) = Some n /\
      convert_literal v s = Some x /\
      element c = Cell s /\
      size c = N.to_nat n /\
      held_values c = repeat (@shown _ (carrier_Scalar s) x) (N.to_nat n).
Proof.
  intros P args c out H.
  destruct (construct_outcome _ _ _ H)
    as [(s & a & v & n & x & E & Hn & Hx & -> & _) | [(s & ls & vs & E & _)
       | [(s & ls & vs & E & _) | (z & d & E & _)]]];
    try discriminate E; injection E as ->.
  exists s, a, v, n, x. repeat split; auto.
  - unfold size. cbn. apply repeat_length.
  - cbn. now rewrite map_repeat.
Qed.

Lemma parentheses_give_count_copies_in_cells_witness :
  exists (s : scalar) (a v : literal) (n : N) (x : carrier s),
    [plain (double_literal 5.0); plain (double_literal 1.3)] = [plain a; plain v] /\
    count_of (plain a) = Some n /\
    convert_literal v s = Some x /\
    N.to_nat n = 5%nat.
Proof.
  destruct (parentheses_give_count_copies_in_cells sample_abi
              [plain (double_literal 5.0); plain (double_literal 1.3)]
              (mk_container (Cell s_double) {| arr := repeat {| val := 1.3%float |} 5 |})
              (Parameterized_constructor_of_TypedClass (Some "double")
               :: repeat (Copy_constructor_of_TypedClass (Some "double")
                            (print_double 1.3)) 5)
              eq_refl)
    as (s & a & v & n & x & E & Hn & Hx & _ & Hs & _).
  exists s, a, v, n, x. repeat split; auto.
Defined.

(** ** The trace of any declaration *)

(** X5. Take a declaration without template arguments whose arguments are
    [int] or [double] literals or [TypedClass{literal}] temporaries.
    Whenever it constructs: the default constructor of [TypedClass] is not
    run; a container of plain scalars leaves the trace empty; and for a
    container of cells the copy-construction events of the trace are, in
    order, exactly the construction of its elements (the i-th carries the
    value the i-th element holds), every event of the trace naming the
    element's scalar type. *)
Theorem every_stored_cell_has_its_copy_event :
  forall (P : Platform) (i : initializer) (c : container) (out : list line),
    construct i = Some (c, out) ->
    events_of_kind Default (trace out) = [] /\
    match element c with
    | Plain _ => trace out = []
    | Cell s =>
        map payload (events_of_kind Copy (trace out)) = map Some (held_values c) /\
        Forall (fun e => typeName e = displayName (scalar_ctype s)) (trace out)
    end.
Proof.
  intros P i c out H.
  destruct (construct_outcome _ _ _ H)
    as [(s & a & v & n & x & _ & _ & _ & -> & ->) | [(s & ls & vs & _ & _ & -> & ->)
       | [(s & ls & vs & _ & _ & -> & ->) | (z & d & _ & _ & -> & ->)]]].
  - cbn [element trace event_of]. rewrite trace_repeat_copy.
    unfold events_of_kind. cbn [filter kind kind_eqb].
    fold (events_of_kind Default
            (repeat (mk_event Copy (displayName (scalar_ctype s))
                       (Some (@shown _ (carrier_Scalar s) x))) (N.to_nat n))).
    fold (events_of_kind Copy
            (repeat (mk_event Copy (displayName (scalar_ctype s))
                       (Some (@shown _ (carrier_Scalar s) x))) (N.to_nat n))).
    rewrite (events_of_kind_repeat Copy) by reflexivity.
    split; [|split].
    + clear. induction (N.to_nat n) as [|k IH]; [reflexivity|exact IH].
    + cbn [held_values arr]. now rewrite !map_repeat.
    + constructor; [reflexivity|]. apply Forall_forall.
      intros e He. apply repeat_spec in He. now subst e.
  - cbn. auto.
  - cbn [element]. rewrite !trace_app, trace_value_constructions.
    rewrite (trace_copy_constructions _ (@shown _ (carrier_Scalar s))).
    cbn [trace event_of]. rewrite app_nil_r, !events_of_kind_app.
    rewrite (events_of_kind_map_other Default), (events_of_kind_map_other Default),
      (events_of_kind_map_other Copy), (events_of_kind_map_same Copy);
      try (intros; reflexivity).
    split; [reflexivity|]. split.
    + cbn [app held_values arr]. rewrite !map_map. reflexivity.
    + apply Forall_app. split; apply Forall_forall; intros e He;
        apply in_map_iff in He; destruct He as [y [<- _]]; reflexivity.
  - cbn. repeat split; repeat constructor.
Qed.

Lemma every_stored_cell_has_its_copy_event_witness :
  events_of_kind Default
    (trace (Parameterized_constructor_of_TypedClass (Some "double")
            :: repeat (Copy_constructor_of_TypedClass (Some "double")
                         (print_double 1.3)) 5)) = [].
Proof.
  exact (proj1 (every_stored_cell_has_its_copy_event sample_abi
                  (parens [plain (int_literal 5); plain (double_literal 1.3)])
                  (mk_container (Cell s_double)
                     {| arr := repeat {| val := 1.3%float |} 5 |})
                  _ eq_refl)).
Defined.

(** ** The run-time library only names what is built *)

Lemma accepted_constructs (P : Platform) (i : initializer) :
  accepted i -> exists r, construct i = Some r.
Proof.
  intros [s z v Hz Hv | s d n v Hd Hv | s ls Hne HF | s ls Hne HF | z d Hz].
  - destruct (convert_literal_same v s Hv) as [x Hx].
    eexists. exact (construct_count_and_value P s z v x Hz Hv Hx).
  - destruct (convert_literal_same v s Hv) as [x Hx].
    eexists. exact (construct_double_count_and_value P s d n v x Hd Hv Hx).
  - destruct (values_of_literals s ls HF) as [vs Hvs].
    eexists. exact (construct_braced_scalars s ls vs Hne HF Hvs).
  - destruct (values_of_literals s ls HF) as [vs Hvs].
    eexists. exact (construct_braced_cells s ls vs Hne HF Hvs).
  - eexists. exact (construct_int_and_double P z d Hz).
Qed.

Lemma Some_map_inj {A : Type} (xs ys : list A) : map Some xs = map Some ys -> xs = ys.
Proof.
  revert ys. induction xs as [|x xs IH]; intros [|y ys] H; try discriminate;
    [reflexivity|].
  simpl in H. injection H as -> H. f_equal. auto.
Qed.

(** Two platforms differ in the names the statements of a declaration carry,
    and in nothing else. *)
Lemma construct_up_to_names :
  forall (P P' : Platform) (i : initializer),
    option_map (fun m => (result m, map without_name (output m))) (@construct P i) =
    option_map (fun m => (result m, map without_name (output m))) (@construct P' i).
Proof.
  intros P P' i.
  destruct (@construct P i) as [[c out]|] eqn:H.
  - pose proof (construct_accepts_only i _ H) as A. rewrite <- H.
    destruct A as [s z v Hz Hv | s d n v Hd Hv | s ls Hne HF | s ls Hne HF | z d Hz].
    + destruct (convert_literal_same v s Hv) as [x Hx].
      rewrite (construct_count_and_value P s z v x Hz Hv Hx).
      rewrite (construct_count_and_value P' s z v x Hz Hv Hx).
      cbn [option_map result output fst snd map without_name].
      now rewrite !map_repeat.
    + destruct (convert_literal_same v s Hv) as [x Hx].
      rewrite (construct_double_count_and_value P s d n v x Hd Hv Hx).
      rewrite (construct_double_count_and_value P' s d n v x Hd Hv Hx).
      cbn [option_map result output fst snd map without_name].
      now rewrite !map_repeat.
    + destruct (values_of_literals s ls HF) as [vs Hvs].
      rewrite (@construct_braced_scalars P s ls vs Hne HF Hvs).
      rewrite (@construct_braced_scalars P' s ls vs Hne HF Hvs).
      reflexivity.
    + destruct (values_of_literals s ls HF) as [vs Hvs].
      rewrite (@construct_braced_cells P s ls vs Hne HF Hvs).
      rewrite (@construct_braced_cells P' s ls vs Hne HF Hvs).
      cbn [option_map result output fst snd].
      rewrite !map_app, !map_map. reflexivity.
    + rewrite (construct_int_and_double P z d Hz).
      rewrite (construct_int_and_double P' z d Hz).
      reflexivity.
  - destruct (@construct P' i) as [r|] eqn:H'; [|reflexivity].
    pose proof (@construct_accepts_only P' i _ H') as A.
    destruct (accepted_constructs P i A) as [r' Hr']. congruence.
Qed.

(** X6. Take a declaration without template arguments whose arguments are
    [int] or [double] literals or [TypedClass{literal}] temporaries. What it
    does is the same whatever [typeid(T).name()] and [abi::__cxa_demangle]
    return, also the null pointer: the same declarations construct, they
    build the same container with the same elements, and they execute the
    same output statements in the same order with the same values, which
    can differ in the names they carry only. *)
Theorem the_container_does_not_depend_on_the_names :
  forall (P P' : Platform) (i : initializer),
    option_map (fun m => (result m, map without_name (output m))) (@construct P i) =
    option_map (fun m => (result m, map without_name (output m))) (@construct P' i).
Proof.
  exact construct_up_to_names.
Qed.

(** ** The loops of main *)










(** ** Braces against parentheses *)

(** X8. For an [int] literal [z], [DynamicArray x{z}] (line 83 has [{0}])
    deduces [DynamicArray<int>] and holds the one element [z], and so does
    [DynamicArray<int> x{z}]; [DynamicArray<int> x(z)] holds [z] zeros
    instead, and [DynamicArray x(z)] deduces nothing, since no parameter of
    the constructor taking a count mentions [T]. *)
Theorem braces_hold_the_literal_parentheses_count_with_it :
  forall (P : Platform) (z : Z),
    0 <= z <= INT_MAX ->
    construct (braces [plain (int_literal z)]) =
      Some (mk_container (Plain s_int) {| arr := [z] |},
            [Used_initializer_list_in_DynamicArray (displayName t_int)]) /\
    construct_as (Plain s_int) (braces [plain (int_literal z)]) =
      Some ({| arr := [z] |},
            [Used_initializer_list_in_DynamicArray (displayName t_int)]) /\
    construct_as (Plain s_int) (parens [plain (int_literal z)]) =
      Some ({| arr := repeat 0 (Z.to_nat z) |}, []) /\
    construct (parens [plain (int_literal z)]) = None.
Proof.
  intros P z Hz.
  assert (T : argument_types [plain (int_literal z)] = Some [t_int]).
  { unfold argument_types. cbn [map argument_type].
    now rewrite (literal_scalar_int z Hz). }
  assert (B : construct_as (Plain s_int) (braces [plain (int_literal z)]) =
              Some ({| arr := [z] |},
                    [Used_initializer_list_in_DynamicArray (displayName t_int)])).
  { unfold construct_as, select_constructor. rewrite T. reflexivity. }
  repeat split.
  - unfold construct, class_template_argument_deduction. rewrite T.
    cbn [deduce_from_list forallb etype_of]. now rewrite B.
  - exact B.
  - unfold construct_as, select_constructor. rewrite T.
    cbn [select_by_arguments to_size_t_conversion andb ctype_of scalar_ctype
         arguments_of run_constructor].
    rewrite (count_of_int z Hz). cbn [option_map]. unfold DynamicArray_sized.
    cbn [value_initialize scalar_ValueInitializable].
    now rewrite bind_ret_l, vector_fill_scalar, Z_N_nat.
  - unfold construct, class_template_argument_deduction. rewrite T.
    reflexivity.
Qed.

Lemma braces_hold_the_literal_parentheses_count_with_it_witness :
  @construct sample_abi (braces [plain (int_literal 0)]) =
    Some (mk_container (Plain s_int) {| arr := [0] |},
          [Used_initializer_list_in_DynamicArray (Some "int")]) /\
  @construct_as sample_abi (Plain s_int) (parens [plain (int_literal 0)]) =
    Some ({| arr := [] |}, []).
Proof.
  assert (Hz : 0 <= 0 <= INT_MAX) by (unfold INT_MAX; lia).
  pose proof (braces_hold_the_literal_parentheses_count_with_it sample_abi 0 Hz) as H.
  split; [exact (proj1 H) | exact (proj1 (proj2 (proj2 H)))].
Defined.

(** ** A list of literals for a container of cells *)

Lemma literal_type_cases (l : literal) :
  literal_scalar l <> None ->
  exists s x, literal_scalar l = Some s /\ convert_literal l s_double = Some x.
Proof.
  destruct l as [z|d]; simpl.
  - destruct ((0 <=? z) && (z <=? INT_MAX)); [|congruence]. eauto.
  - eauto.
Qed.

Section literals_to_cells.
Context {P : Platform}.

Lemma literals_convert_to_cells (ls : list literal) :
  Forall (fun l => literal_scalar l <> None) ls ->
  exists (ts : list ctype) (vs : list float),
    argument_types (map plain ls) = Some ts /\
    forallb is_viable (map (fun a => element_conversion a (t_TypedClass t_double)) ts) = true /\
    existsb is_narrowing (map (fun a => element_conversion a (t_TypedClass t_double)) ts) = false /\
    map (fun l => convert_literal l s_double) ls = map Some vs /\
    all_some (map (initialize_from (Cell s_double)) (map plain ls)) =
      Some (map (@TypedClass_from_value P float double_Scalar) vs).
Proof.
  induction 1 as [|l ls Hl _ (ts & vs & Ht & Hv & Hn & Hc & Hi)].
  - exists [], []. repeat split.
  - destruct (literal_type_cases l Hl) as (s & x & Hs & Hx).
    exists (scalar_ctype s :: ts), (x :: vs).
    unfold argument_types in *. cbn [map argument_type all_some].
    rewrite Hs. cbn [option_map]. rewrite Ht. cbn [option_map].
    split; [reflexivity|].
    split; [cbn [map forallb]; rewrite Hv; destruct s; reflexivity|].
    split; [cbn [map existsb]; rewrite Hn; destruct s; reflexivity|].
    split; [now rewrite Hx, Hc|].
    cbn [initialize_from]. cbn [carrier carrier_Scalar] in *.
    rewrite Hx. cbn [option_map]. now rewrite Hi.
Qed.

End literals_to_cells.

(** X9. [DynamicArray<TypedClass<double>> x{l1, ..., lk}] with any [k >= 1]
    literals, [int] and [double] mixed at will, always takes the
    initializer-list constructor: each literal is converted to [double] and
    made a cell of the list ([k] value constructions), then each cell is
    copied into the vector ([k] copy constructions, in order), and the
    container holds [k] cells with the converted values. *)
Theorem literals_for_a_container_of_cells :
  forall (P : Platform) (ls : list literal),
    ls <> [] ->
    Forall (fun l => literal_scalar l <> None) ls ->
    exists vs : list float,
      map (fun l => convert_literal l s_double) ls = map Some vs /\
      select_constructor (t_TypedClass t_double) (braces (map plain ls)) =
        Some ctor_initializer_list /\
      construct_as (Cell s_double) (braces (map plain ls)) =
        Some ({| arr := map mk_TypedClass vs |},
              map (fun _ => Parameterized_constructor_of_TypedClass
                              (displayName t_double)) vs
              ++ map (fun x => Copy_constructor_of_TypedClass
                                 (displayName t_double) (print_double x)) vs
              ++ [Used_initializer_list_in_DynamicArray
                    (displayName (t_TypedClass t_double))]) /\
      List.length vs = List.length ls.
Proof.
  intros P ls Hne HF.
  destruct (literals_convert_to_cells ls HF) as (ts & vs & Ht & Hv & Hn & Hc & Hi).
  exists vs. split; [exact Hc|].
  assert (S : select_constructor (t_TypedClass t_double) (braces (map plain ls)) =
              Some ctor_initializer_list).
  { unfold select_constructor. destruct ls as [|l ls]; [congruence|].
    cbn [map] in *. rewrite Ht, Hv, Hn. reflexivity. }
  split; [exact S|]. split.
  - unfold construct_as. cbn [ctype_of scalar_ctype]. rewrite S.
    cbn [arguments_of run_constructor]. rewrite Hi. cbn [option_map].
    unfold DynamicArray_initializer_list.
    cbn [eobj eobj_Element carrier carrier_Scalar].
    rewrite sequence_from_value. unfold bind. cbn [ret cout].
    rewrite vector_from_list_TypedClass. cbn [element_type TypedClass_Element].
    rewrite map_map, !app_nil_r. reflexivity.
  - etransitivity; [exact (map_Some_length _ _ Hc) | apply length_map].
Qed.

Lemma literals_for_a_container_of_cells_witness :
  exists vs : list float,
    select_constructor (t_TypedClass t_double)
      (braces (map plain [int_literal 1; double_literal 2.5; int_literal 3])) =
      Some ctor_initializer_list /\
    List.length vs = 3%nat.
Proof.
  destruct (literals_for_a_container_of_cells sample_abi
              [int_literal 1; double_literal 2.5; int_literal 3])
    as (vs & _ & S & _ & L).
  - discriminate.
  - repeat constructor; discriminate.
  - exists vs. split; assumption.
Defined.

(** ** The two main functions on any run-time library *)

(** X10. Whatever the run-time library returns for the names, also the
    null pointer, [main] of CTAD.cpp constructs its five containers and runs
    the same constructors: none for the first two declarations, two value
    constructions and two copies for the third, three and three for the
    fourth, one value construction and five copies for the fifth; the
    default constructor of [TypedClass] never runs and every event names
    [double]. The five loops execute 13 element statements, numbered from 0
    in each loop. All of the statements reach the terminal when the names of
    [int], [double] and [TypedClass<double>] are not null; when the name of
    [int] is null, the very first statement fails the stream at that name
    and no line is written in full. *)
Theorem CTAD_main_constructs_on_every_platform :
  forall P : Platform,
    exists out : list line,
      main = Some (tt, out) /\
      map kind (trace out) =
        [ ValueInit; ValueInit; Copy; Copy;
          ValueInit; ValueInit; ValueInit; Copy; Copy; Copy;
          ValueInit; Copy; Copy; Copy; Copy; Copy ] /\
      Forall (fun e => typeName e = displayName t_double) (trace out) /\
      map (fun l => match l with Element_line j _ => j | _ => -1 end)
          (filter (fun l => match l with Element_line _ _ => true | _ => false end) out) =
        [0; 0; 1; 0; 1; 0; 1; 2; 0; 1; 2; 3; 4] /\
      (displayName t_int = None ->
         complete_lines null_name out = [] /\
         cut_line null_name out = Some (Used_initializer_list_in_DynamicArray None)) /\
      (displayName t_int <> None ->
       displayName t_double <> None ->
       displayName (t_TypedClass t_double) <> None ->
         complete_lines null_name out = out /\ cut_line null_name out = None).
Proof.
  intros P. eexists. split; [reflexivity|].
  split; [reflexivity|]. split; [repeat constructor|]. split; [reflexivity|].
  unfold displayName, rawName.
  cbv -[demangled cxa_demangle type_info_name].
  destruct (demangled (cxa_demangle (type_info_name t_int))) as [a|];
    destruct (demangled (cxa_demangle (type_info_name t_double))) as [b|];
    destruct (demangled (cxa_demangle (type_info_name (t_TypedClass t_double)))) as [c|];
    split; intros; try congruence; auto.
Qed.

Lemma CTAD_main_constructs_on_every_platform_witness :
  exists out : list line,
    @main sample_abi = Some (tt, out) /\
    complete_lines null_name out = out /\
    List.length out = 38%nat.
Proof.
  destruct (CTAD_main_constructs_on_every_platform sample_abi)
    as (out & Hm & _ & _ & _ & _ & Hg).
  exists out. split; [exact Hm|]. split.
  - refine (proj1 (Hg _ _ _)); intros E; vm_compute in E; discriminate E.
  - injection Hm as <-. reflexivity.
Defined.

(** X11. Whatever the run-time library returns, [main] of typeChecks.cpp
    executes fifteen output statements: ["Hello from Id"] once for each of
    the two objects [i] and [j] and for none of the six calls that take [i]
    by reference; the raw and the demangled name of [int], [double],
    [char[6]] and [Id<float>]; and the compile-time results [int], [double],
    something else (the string literal), [Id<float>], something else
    ([Id<double>]). All fifteen reach the terminal when the four demangled
    names are not null. When the demangled name of [int] is null, exactly
    the first five are written in full, the sixth stops after
    ["Demangled Type: "], and nothing else is written, the compile-time
    results included. *)
Theorem typeChecks_main_on_every_platform :
  forall P : Platform,
    typeChecks.main =
      (tt,
       [ typeChecks.Hello_from_Id;
         typeChecks.Type_ (rawName t_int);
         typeChecks.Type_ (rawName t_double);
         typeChecks.Type_ (rawName (t_char_array 6));
         typeChecks.Type_ (rawName (t_Id t_float));
         typeChecks.Demangled_Type (displayName t_int);
         typeChecks.Demangled_Type (displayName t_double);
         typeChecks.Demangled_Type (displayName (t_char_array 6));
         typeChecks.Demangled_Type (displayName (t_Id t_float));
         typeChecks.Hello_from_Id;
         typeChecks.Type_at_compile_time_is_int;
         typeChecks.Type_at_compile_time_is_double;
         typeChecks.Type_at_compile_time_is_something_else;
         typeChecks.Type_at_compile_time_is_Id_float;
         typeChecks.Type_at_compile_time_is_something_else ]) /\
    (displayName t_int = None ->
       complete_lines typeChecks.null_name (output typeChecks.main) =
         [ typeChecks.Hello_from_Id;
           typeChecks.Type_ (rawName t_int);
           typeChecks.Type_ (rawName t_double);
           typeChecks.Type_ (rawName (t_char_array 6));
           typeChecks.Type_ (rawName (t_Id t_float)) ] /\
       cut_line typeChecks.null_name (output typeChecks.main) =
         Some (typeChecks.Demangled_Type None)) /\
    (displayName t_int <> None ->
     displayName t_double <> None ->
     displayName (t_char_array 6) <> None ->
     displayName (t_Id t_float) <> None ->
       complete_lines typeChecks.null_name (output typeChecks.main) =
         output typeChecks.main /\
       cut_line typeChecks.null_name (output typeChecks.main) = None).
Proof.
  intros P. split; [reflexivity|].
  unfold displayName, rawName.
  cbv -[demangled cxa_demangle type_info_name].
  destruct (demangled (cxa_demangle (type_info_name t_int))) as [a|];
    destruct (demangled (cxa_demangle (type_info_name t_double))) as [b|];
    destruct (demangled (cxa_demangle (type_info_name (t_char_array 6)))) as [c|];
    destruct (demangled (cxa_demangle (type_info_name (t_Id t_float)))) as [d|];
    split; intros; try congruence; auto.
Qed.

Lemma typeChecks_main_on_every_platform_witness :
  complete_lines typeChecks.null_name (output (@typeChecks.main no_demangler)) =
    [ typeChecks.Hello_from_Id;
      typeChecks.Type_ "i"; typeChecks.Type_ "d"; typeChecks.Type_ "?";
      typeChecks.Type_ "?" ] /\
  cut_line typeChecks.null_name (output (@typeChecks.main no_demangler)) =
    Some (typeChecks.Demangled_Type None).
Proof.
  exact (proj1 (proj2 (typeChecks_main_on_every_platform no_demangler)) eq_refl).
Defined.

(** X12. The value [abi::__cxa_demangle] stores in [status] reaches no
    output of either program: with any other status values, every
    declaration constructs the same container and writes the same lines, and
    so do both [main] functions. *)
Theorem status_is_never_read :
  forall (P : Platform) (st : string -> Z),
    (forall i : initializer, @construct (with_status P st) i = @construct P i) /\
    (forall (e : etype) (i : initializer),
        @construct_as (with_status P st) e i = @construct_as P e i) /\
    @main (with_status P st) = @main P /\
    @typeChecks.main (with_status P st) = @typeChecks.main P.
Proof.
  intros P st. repeat split; intros; reflexivity.
Qed.

(** ** The second and the third declaration of main *)

(** X13. [DynamicArray x{z.0, d}] and [DynamicArray x{z, d}] (lines 92 and
    109, with [z = 10]) hold and print the same two values, but the first is
    a [DynamicArray<double>] built without any construction event and the
    second a [DynamicArray<TypedClass<double>>] built with four. *)
Theorem an_int_in_the_list_only_changes_the_wrapping :
  forall (P : Platform) (z : Z) (d : float),
    0 <= z <= INT_MAX ->
    exists (c2 c3 : container) (out2 out3 : list line),
      construct (braces [plain (double_literal (int_to_double z));
                         plain (double_literal d)]) = Some (c2, out2) /\
      construct (braces [plain (int_literal z); plain (double_literal d)]) =
        Some (c3, out3) /\
      held_values c2 = held_values c3 /\
      element c2 = Plain s_double /\
      element c3 = Cell s_double /\
      trace out2 = [] /\
      List.length (trace out3) = 4%nat.
Proof.
  intros P z d Hz.
  eexists. eexists. eexists. eexists. split; [|split].
  - apply (construct_braced_scalars s_double
             [double_literal (int_to_double z); double_literal d]
             [int_to_double z; d]).
    + discriminate.
    + repeat constructor.
    + reflexivity.
  - exact (construct_int_and_double P z d Hz).
  - repeat split.
Qed.

Lemma an_int_in_the_list_only_changes_the_wrapping_witness :
  exists (c2 c3 : container) (out2 out3 : list line),
    @construct sample_abi
      (braces [plain (double_literal (int_to_double 10)); plain (double_literal 1.3)]) =
      Some (c2, out2) /\
    @construct sample_abi
      (braces [plain (int_literal 10); plain (double_literal 1.3)]) = Some (c3, out3) /\
    held_values c2 = held_values c3.
Proof.
  destruct (an_int_in_the_list_only_changes_the_wrapping sample_abi 10 1.3)
    as (c2 & c3 & out2 & out3 & H2 & H3 & Hv & _).
  - unfold INT_MAX. lia.
  - exists c2, c3, out2, out3. repeat split; assumption.
Defined.

(** * The demangled name at its call sites *)


